(** * spotify-wrapped: the history scraper of [get_data.py]

    A shallow embedding of [get_data.py] (class [SpotifyScraper] and [main])
    and the properties of its token life cycle, its page fetch, its
    normalisation of play events and its driver loop.

    Conventions of the embedding.
    - A Python [int] is a [Z]; a Python [str] is a [string], one character
      per code point (code points below 256); [bytes] are a [list byte];
      a finite Python [float] is the rational number it stands for, and
      the operations on floats round as binary64 does.
    - A value that comes out of [response.json()] is a [json] value; a
      [dict] is an association list in insertion order with distinct keys.
      JSON numbers with a fraction are not part of the model, and an
      integer that the decoder lets through has at most 4300 digits.
    - A Python expression that may raise evaluates to a [result]; a method
      that reads or changes the process state is a function of the [world]
      that returns a [result] and the world it leaves behind ([M]).
    - What the process cannot decide (the clock, the network, the keyboard,
      the random source, the object store) is the [environment] of the
      world: a script of the answers it will give, consumed in order. *)

From stdpp Require Import gmap strings list.
From Stdlib Require Import ZArith QArith Ascii String Strings.Byte Lia.

Set Warnings "-register-all".
Local Open Scope Z_scope.

(** ** Python values and exceptions *)

Inductive json : Type :=
| JNull
| JBool (b : bool)
| JInt (n : Z)
| JStr (s : string)
| JList (items : list json)
| JObj (members : list (string * json)).

Inductive exception : Type :=
| KeyError (key : json)
| IndexError
| TypeError
| ValueError
| AttributeError
| EOFError
| Exception (msg : string)
| LibraryError (class : string).

Inductive result (A : Type) : Type :=
| Ok (a : A)
| Raise (e : exception).
Arguments Ok {A} a.
Arguments Raise {A} e.

Definition result_bind {A B} (r : result A) (k : A → result B) : result B :=
  match r with
  | Ok a => k a
  | Raise e => Raise e
  end.

Notation "'let?' x ':=' r 'in' k" := (result_bind r (fun x => k))
  (at level 10, x name, r at level 100, k at level 200).

Module Py.

(** [d.get(k)] on the members of a dict. *)
Fixpoint assoc (k : string) (members : list (string * json)) : option json :=
  match members with
  | [] => None
  | (k', v) :: rest => if String.eqb k k' then Some v else assoc k rest
  end.

(** [v[k]] for a [str] key [k]: only a dict has such items. *)
Definition getitem (v : json) (k : string) : result json :=
  match v with
  | JObj members =>
      match assoc k members with
      | Some x => Ok x
      | None => Raise (KeyError (JStr k))
      end
  | _ => Raise TypeError
  end.

(** The position that [l[i]] reads in a sequence of [len] elements. *)
Definition position (len : nat) (i : Z) : option nat :=
  let n := Z.of_nat len in
  if (0 <=? i) && (i <? n) then Some (Z.to_nat i)
  else if (i <? 0) && (0 <=? i + n) then Some (Z.to_nat (i + n))
  else None.

(** [v[i]] for an [int] index [i]. *)
Definition getindex (v : json) (i : Z) : result json :=
  match v with
  | JList items =>
      match position (List.length items) i with
      | Some p => match nth_error items p with
                  | Some x => Ok x
                  | None => Raise IndexError
                  end
      | None => Raise IndexError
      end
  | JStr s =>
      match position (String.length s) i with
      | Some p => match String.get p s with
                  | Some c => Ok (JStr (String c EmptyString))
                  | None => Raise IndexError
                  end
      | None => Raise IndexError
      end
  | JObj _ => Raise (KeyError (JInt i))
  | _ => Raise TypeError
  end.

(** [v.get(k, default)]: a method of dicts only. *)
Definition get (v : json) (k : string) (fallback : json) : result json :=
  match v with
  | JObj members => Ok (default fallback (assoc k members))
  | _ => Raise AttributeError
  end.

End Py.

(** [r ∙ k] is [r[k]] for a key, [r ∙# i] is [r[i]] for an index, on an
    expression [r] that may already have raised. *)
Notation "r ∙ k" := (result_bind r (fun v => Py.getitem v k))
  (at level 29, left associativity).
Notation "r ∙# i" := (result_bind r (fun v => Py.getindex v i))
  (at level 29, left associativity).

(** ** Text helpers *)

Module Text.

Definition digit (d : Z) : ascii := ascii_of_nat (48 + Z.to_nat d).

Fixpoint digits_loop (fuel : nat) (n : Z) (acc : string) : string :=
  match fuel with
  | O => acc
  | S fuel' =>
      let acc' := String (digit (n mod 10)) acc in
      if n <? 10 then acc' else digits_loop fuel' (n / 10) acc'
  end.

(** [str(n)] for an [int]. *)
Definition decimal (n : Z) : string :=
  let m := Z.abs n in
  let body := digits_loop (S (Z.to_nat (Z.log2 m))) m "" in
  if n <? 0 then String "-" body else body.

(** [f'{n:02d}'] for [0 <= n]: at least two digits. *)
Definition two_digits (n : Z) : string :=
  if n <? 10 then String "0" (decimal n) else decimal n.

Definition is_digit (c : ascii) : bool :=
  let n := nat_of_ascii c in (48 <=? n)%nat && (n <=? 57)%nat.

Definition digit_value (c : ascii) : Z := Z.of_nat (nat_of_ascii c) - 48.

(** The characters that [\s] and [str.isspace] accept, below 256. *)
Definition is_space (c : ascii) : bool :=
  let n := nat_of_ascii c in
  ((9 <=? n) && (n <=? 13) || (28 <=? n) && (n <=? 32)
   || (n =? 133) || (n =? 160))%nat.

(** [c in s] for a character [c]. *)
Fixpoint contains (c : ascii) (s : string) : bool :=
  match s with
  | EmptyString => false
  | String a rest => Ascii.eqb a c || contains c rest
  end.

(** [s.rstrip(c)] for a single character [c]. *)
Fixpoint rstrip (c : ascii) (s : string) : string :=
  match s with
  | EmptyString => EmptyString
  | String a rest =>
      match rstrip c rest with
      | EmptyString => if Ascii.eqb a c then EmptyString else String a EmptyString
      | rest' => String a rest'
      end
  end.

(** [s.lower()] on code points below 256: the letters [A-Z] and the
    capitals from U+00C0 to U+00DE, the multiplication sign apart. *)
Definition lower_char (c : ascii) : ascii :=
  let n := nat_of_ascii c in
  if ((65 <=? n) && (n <=? 90)
      || (192 <=? n) && (n <=? 222) && negb (n =? 215))%nat
  then ascii_of_nat (n + 32) else c.

Fixpoint lower (s : string) : string :=
  match s with
  | EmptyString => EmptyString
  | String a rest => String (lower_char a) (lower rest)
  end.

(** [s.encode()]: UTF-8, for code points below 256. *)
Fixpoint encode (s : string) : list byte :=
  match s with
  | EmptyString => []
  | String a rest =>
      let n := N_of_ascii a in
      if (n <? 128)%N then byte_of_ascii a :: encode rest
      else
        default x00 (Byte.of_N (N.lor 192 (N.shiftr n 6)))
        :: default x00 (Byte.of_N (N.lor 128 (N.land n 63)))
        :: encode rest
  end.

End Text.

(** ** [datetime]: naive date-times, their difference, their text form *)

Module datetime.

Record t : Type := mk {
  year : Z; month : Z; day : Z;
  hour : Z; minute : Z; second : Z; microsecond : Z
}.

Definition is_leap (y : Z) : bool :=
  (y mod 4 =? 0) && (negb (y mod 100 =? 0) || (y mod 400 =? 0)).

Definition days_in_month (y m : Z) : Z :=
  if m =? 2 then (if is_leap y then 29 else 28)
  else if (m =? 4) || (m =? 6) || (m =? 9) || (m =? 11) then 30
  else 31.

Definition days_before_year (y : Z) : Z :=
  let p := y - 1 in p * 365 + p / 4 - p / 100 + p / 400.

Definition days_before_month (y m : Z) : Z :=
  nth (Z.to_nat m) [0; 0; 31; 59; 90; 120; 151; 181; 212; 243; 273; 304; 334] 0
  + (if (2 <? m) && is_leap y then 1 else 0).

(** [d.toordinal()]: 1 for the first of January of year 1. *)
Definition toordinal (d : t) : Z :=
  days_before_year (year d) + days_before_month (year d) (month d) + day d.

(** The microseconds from midnight before year 1 to [d]. *)
Definition microseconds (d : t) : Z :=
  ((toordinal d * 24 + hour d) * 60 + minute d) * 60 * 1000000
  + second d * 1000000 + microsecond d.

(** The fields the constructor [datetime(...)] accepts. *)
Definition valid (d : t) : bool :=
  (1 <=? year d) && (year d <=? 9999)
  && (1 <=? month d) && (month d <=? 12)
  && (1 <=? day d) && (day d <=? days_in_month (year d) (month d))
  && (0 <=? hour d) && (hour d <=? 23)
  && (0 <=? minute d) && (minute d <=? 59)
  && (0 <=? second d) && (second d <=? 59)
  && (0 <=? microsecond d) && (microsecond d <=? 999999).

(** A [timedelta] is its length in microseconds. [a - b]: *)
Definition sub (a b : t) : Z := microseconds a - microseconds b.

(** [delta.total_seconds()]. Python computes a float; the model keeps
    the exact quotient. *)
Definition total_seconds (delta : Z) : Q := Qmake delta 1000000.

(** [d.strftime('%d/%m/%Y %H:%M:%S')]; [%Y] is not padded by the C
    library. *)
Definition strftime_dmY_HMS (d : t) : string :=
  Text.two_digits (day d) +:+ "/" +:+ Text.two_digits (month d) +:+ "/"
  +:+ Text.decimal (year d) +:+ " "
  +:+ Text.two_digits (hour d) +:+ ":" +:+ Text.two_digits (minute d)
  +:+ ":" +:+ Text.two_digits (second d).

(** [d.strftime('%Y%m%d_%H%M%S')] *)
Definition strftime_Ymd_HMS (d : t) : string :=
  Text.decimal (year d) +:+ Text.two_digits (month d)
  +:+ Text.two_digits (day d) +:+ "_"
  +:+ Text.two_digits (hour d) +:+ Text.two_digits (minute d)
  +:+ Text.two_digits (second d).

(** *** [datetime.strptime(s, '%d/%m/%Y %H:%M:%S')]

    [strptime] turns the format into a regular expression, each directive
    an ordered alternation, and matches it at the start of the text with
    backtracking. A pattern below is tried on the head of the text and,
    when it fits, hands the number it read and the rest to what follows. *)

Definition rest_parser (A : Type) : Type := string → option A.

(** A two-character alternative [[a][b]] with the tests on both. *)
Definition two {A} (pa pb : ascii → bool) (k : Z → rest_parser A)
  : rest_parser A :=
  fun s =>
    match s with
    | String a (String b rest) =>
        if pa a && pb b && Text.is_digit b
        then k ((if Text.is_digit a then Text.digit_value a else 0) * 10
                + Text.digit_value b) rest
        else None
    | _ => None
    end.

(** A one-character alternative. *)
Definition one {A} (pa : ascii → bool) (k : Z → rest_parser A)
  : rest_parser A :=
  fun s =>
    match s with
    | String a rest =>
        if pa a && Text.is_digit a then k (Text.digit_value a) rest else None
    | _ => None
    end.

(** The first alternative, in order, that lets the rest match. *)
Fixpoint first_of {A} (alts : list (rest_parser A)) : rest_parser A :=
  fun s =>
    match alts with
    | [] => None
    | p :: others =>
        match p s with
        | Some r => Some r
        | None => first_of others s
        end
    end.

Definition between (lo hi : ascii) (c : ascii) : bool :=
  (nat_of_ascii lo <=? nat_of_ascii c)%nat
  && (nat_of_ascii c <=? nat_of_ascii hi)%nat.

Definition any_digit : ascii → bool := Text.is_digit.

(** [%d]: [3[0-1]|[1-2]\d|0[1-9]|[1-9]| [1-9]] *)
Definition directive_d {A} (k : Z → rest_parser A) : rest_parser A :=
  first_of [ two (Ascii.eqb "3") (between "0" "1") k;
             two (between "1" "2") any_digit k;
             two (Ascii.eqb "0") (between "1" "9") k;
             one (between "1" "9") k;
             two (Ascii.eqb " ") (between "1" "9") k ].

(** [%m]: [1[0-2]|0[1-9]|[1-9]] *)
Definition directive_m {A} (k : Z → rest_parser A) : rest_parser A :=
  first_of [ two (Ascii.eqb "1") (between "0" "2") k;
             two (Ascii.eqb "0") (between "1" "9") k;
             one (between "1" "9") k ].

(** [%Y]: [\d\d\d\d] *)
Definition directive_Y {A} (k : Z → rest_parser A) : rest_parser A :=
  two any_digit any_digit (fun hi => two any_digit any_digit (fun lo =>
    k (hi * 100 + lo))).

(** [%H]: [2[0-3]|[0-1]\d|\d] *)
Definition directive_H {A} (k : Z → rest_parser A) : rest_parser A :=
  first_of [ two (Ascii.eqb "2") (between "0" "3") k;
             two (between "0" "1") any_digit k;
             one any_digit k ].

(** [%M]: [[0-5]\d|\d] *)
Definition directive_M {A} (k : Z → rest_parser A) : rest_parser A :=
  first_of [ two (between "0" "5") any_digit k; one any_digit k ].

(** [%S]: [6[0-1]|[0-5]\d|\d] *)
Definition directive_S {A} (k : Z → rest_parser A) : rest_parser A :=
  first_of [ two (Ascii.eqb "6") (between "0" "1") k;
             two (between "0" "5") any_digit k;
             one any_digit k ].

(** A literal character of the format. *)
Definition literal {A} (c : ascii) (k : rest_parser A) : rest_parser A :=
  fun s =>
    match s with
    | String a rest => if Ascii.eqb a c then k rest else None
    | EmptyString => None
    end.

(** A blank of the format is [\s+]. What follows it here starts with a
    digit, so the longest run of blanks is the only one that can match. *)
Fixpoint skip_spaces (s : string) : string :=
  match s with
  | String a rest => if Text.is_space a then skip_spaces rest else s
  | EmptyString => s
  end.

Definition spaces {A} (k : rest_parser A) : rest_parser A :=
  fun s =>
    match s with
    | String a rest => if Text.is_space a then k (skip_spaces rest) else None
    | EmptyString => None
    end.

(** The match of the whole format: the fields and the text left over. *)
Definition match_dmY_HMS : rest_parser (t * string) :=
  directive_d (fun d => literal "/" (directive_m (fun m => literal "/" (
  directive_Y (fun y => spaces (
  directive_H (fun h => literal ":" (directive_M (fun mi => literal ":" (
  directive_S (fun s rest => Some (mk y m d h mi s 0, rest)))))))))))).

(** No match, text left over, or fields that no date-time has: all are a
    [ValueError]. *)
Definition strptime_dmY_HMS (s : string) : result t :=
  match match_dmY_HMS s with
  | Some (d, EmptyString) => if valid d then Ok d else Raise ValueError
  | _ => Raise ValueError
  end.

End datetime.

(** [round(q)]: the nearest integer, a tie going to the even one. *)
Definition py_round (q : Q) : Z :=
  let n := Qnum q in
  let d := Z.pos (Qden q) in
  let fl := n / d in
  let r := n mod d in
  if 2 * r <? d then fl
  else if d <? 2 * r then fl + 1
  else if Z.even fl then fl else fl + 1.

(** ** [float]: IEEE 754 binary64

    A finite float is kept as the rational it stands for. An operation
    gives the float nearest to the exact result, a tie going to the even
    significand. Results of 2^1024 and more, where the hardware gives
    [inf], are out of the model: the floats of the program come from a
    date-time and a C [long long] of seconds, and stay below 2^80. *)

Module float.

(** The [k] with [2^k <= q < 2^(k+1)], for a positive [q]. *)
Definition exponent (q : Q) : Z :=
  let k := Z.log2 (Qnum q) - Z.log2 (Z.pos (Qden q)) in
  if Qle_bool (inject_Z 2 ^ k)%Q q then k else k - 1.

(** The distance between the floats around [q]: 53 significant bits, and
    2^-1074 below 2^-1022. *)
Definition ulp (q : Q) : Q :=
  (inject_Z 2
   ^ Z.max (exponent (Qmake (Z.abs (Qnum q)) (Qden q)) - 52) (-1074))%Q.

(** The float nearest to [q]. *)
Definition nearest (q : Q) : Q :=
  if Qnum q =? 0 then 0%Q
  else Qred (inject_Z (py_round (q / ulp q)) * ulp q)%Q.

(** The conversion of a C integer or of a Python [int] in a product. *)
Definition of_int (n : Z) : Q := nearest (inject_Z n).

Definition add (x y : Q) : Q := nearest (x + y).
Definition mul (x y : Q) : Q := nearest (x * y).
Definition div (x y : Q) : Q := nearest (x / y).

End float.

(** ** [hashlib.sha256] (FIPS 180-4) on 32-bit words kept in [Z] *)

Module hashlib.

Definition byte_of_Z (z : Z) : byte :=
  default x00 (Byte.of_N (Z.to_N (z mod 256))).

Definition Z_of_byte (b : byte) : Z := Z.of_N (Byte.to_N b).

Definition wrap (x : Z) : Z := x mod 2 ^ 32.

Definition add32 (x y : Z) : Z := wrap (x + y).

Definition rotr (n x : Z) : Z :=
  Z.lor (Z.shiftr x n) (wrap (Z.shiftl x (32 - n))).

Definition not32 (x : Z) : Z := Z.lxor x 0xffffffff.

Definition Ch (x y z : Z) : Z := Z.lxor (Z.land x y) (Z.land (not32 x) z).

Definition Maj (x y z : Z) : Z :=
  Z.lxor (Z.lxor (Z.land x y) (Z.land x z)) (Z.land y z).

Definition Sigma0 (x : Z) : Z :=
  Z.lxor (Z.lxor (rotr 2 x) (rotr 13 x)) (rotr 22 x).

Definition Sigma1 (x : Z) : Z :=
  Z.lxor (Z.lxor (rotr 6 x) (rotr 11 x)) (rotr 25 x).

Definition sigma0 (x : Z) : Z :=
  Z.lxor (Z.lxor (rotr 7 x) (rotr 18 x)) (Z.shiftr x 3).

Definition sigma1 (x : Z) : Z :=
  Z.lxor (Z.lxor (rotr 17 x) (rotr 19 x)) (Z.shiftr x 10).

(** The first 64 primes. *)
Definition primes : list Z :=
  [ 2; 3; 5; 7; 11; 13; 17; 19; 23; 29; 31; 37; 41; 43; 47; 53;
    59; 61; 67; 71; 73; 79; 83; 89; 97; 101; 103; 107; 109; 113; 127; 131;
    137; 139; 149; 151; 157; 163; 167; 173; 179; 181; 191; 193; 197; 199;
    211; 223; 227; 229; 233; 239; 241; 251; 257; 263; 269; 271; 277; 281;
    283; 293; 307; 311 ].

(** The integer cube root, by bisection between [lo] and [hi]. *)
Fixpoint cube_root_between (fuel : nat) (n lo hi : Z) : Z :=
  match fuel with
  | O => lo
  | S fuel' =>
      let mid := (lo + hi) / 2 in
      if mid * mid * mid <=? n then cube_root_between fuel' n mid hi
      else cube_root_between fuel' n lo mid
  end.

Definition cube_root (n : Z) : Z := cube_root_between 40 n 0 (2 ^ 36).

(** The round constants: the first 32 bits of the fractional parts of the
    cube roots of the primes. *)
Definition K : list Z :=
  map (fun p => wrap (cube_root (p * 2 ^ 96))) primes.

(** The eight working variables, and the hash value between blocks. *)
Definition state : Type := Z * Z * Z * Z * Z * Z * Z * Z.

(** The first 32 bits of the fractional part of a square root. *)
Definition root_bits (p : Z) : Z := wrap (Z.sqrt (p * 2 ^ 64)).

(** The initial hash value, from the square roots of the first eight
    primes. *)
Definition H0 : state :=
  (root_bits 2, root_bits 3, root_bits 5, root_bits 7,
   root_bits 11, root_bits 13, root_bits 17, root_bits 19).

(** The message, the bit [1], zeros up to 56 modulo 64 bytes, and the
    length in bits on eight bytes. *)
Definition pad (data : list byte) : list byte :=
  let len := Z.of_nat (List.length data) in
  let zeros := Z.to_nat ((55 - len) mod 64) in
  data ++ [x80] ++ repeat x00 zeros
  ++ map (fun i => byte_of_Z (Z.shiftr (len * 8) (8 * (7 - Z.of_nat i))))
         (seq 0 8).

Fixpoint words (bs : list byte) : list Z :=
  match bs with
  | a :: b :: c :: d :: rest =>
      (((Z_of_byte a * 256 + Z_of_byte b) * 256 + Z_of_byte c) * 256
       + Z_of_byte d) :: words rest
  | _ => []
  end.

Fixpoint blocks (fuel : nat) (ws : list Z) : list (list Z) :=
  match fuel, ws with
  | S fuel', _ :: _ => firstn 16 ws :: blocks fuel' (skipn 16 ws)
  | _, _ => []
  end.

(** The message schedule: sixteen words of the block, then 48 more. *)
Definition schedule (block : list Z) : list Z :=
  fold_left
    (fun W t =>
       let w i := nth (t - i) W 0 in
       W ++ [add32 (add32 (add32 (sigma1 (w 2%nat)) (w 7%nat))
                          (sigma0 (w 15%nat))) (w 16%nat)])
    (seq 16 48) block.

Definition round (s : state) (kw : Z * Z) : state :=
  let '(a, b, c, d, e, f, g, h) := s in
  let T1 := add32 (add32 (add32 (add32 h (Sigma1 e)) (Ch e f g)) (fst kw))
                  (snd kw) in
  let T2 := add32 (Sigma0 a) (Maj a b c) in
  (add32 T1 T2, a, b, c, add32 d T1, e, f, g).

Definition compress (s : state) (block : list Z) : state :=
  let '(a, b, c, d, e, f, g, h) := s in
  let '(a', b', c', d', e', f', g', h') :=
    fold_left round (combine K (schedule block)) s in
  (add32 a a', add32 b b', add32 c c', add32 d d',
   add32 e e', add32 f f', add32 g g', add32 h h').

Definition word_bytes (w : Z) : list byte :=
  [ byte_of_Z (Z.shiftr w 24); byte_of_Z (Z.shiftr w 16);
    byte_of_Z (Z.shiftr w 8); byte_of_Z w ].

Definition state_bytes (s : state) : list byte :=
  let '(a, b, c, d, e, f, g, h) := s in
  word_bytes a ++ word_bytes b ++ word_bytes c ++ word_bytes d
  ++ word_bytes e ++ word_bytes f ++ word_bytes g ++ word_bytes h.

(** [hashlib.sha256(data).digest()] *)
Definition sha256 (data : list byte) : list byte :=
  let ws := words (pad data) in
  state_bytes (fold_left compress (blocks (List.length ws) ws) H0).

Definition hex_digit (n : Z) : ascii :=
  if n <? 10 then ascii_of_nat (48 + Z.to_nat n)
  else ascii_of_nat (87 + Z.to_nat n).

(** [bytes.hex()] *)
Fixpoint hex (bs : list byte) : string :=
  match bs with
  | [] => EmptyString
  | b :: rest =>
      String (hex_digit (Z_of_byte b / 16))
        (String (hex_digit (Z_of_byte b mod 16)) (hex rest))
  end.

End hashlib.

(** ** [base64] *)

Module base64.

Definition standard : string :=
  "ABCDEFGHIJKLMNOPQRSTUVWXYZabcdefghijklmnopqrstuvwxyz0123456789+/".

Definition urlsafe : string :=
  "ABCDEFGHIJKLMNOPQRSTUVWXYZabcdefghijklmnopqrstuvwxyz0123456789-_".

(** The character of a six-bit value. *)
Definition sextet (alphabet : string) (n : N) : ascii :=
  default "="%char (String.get (N.to_nat n) alphabet).

Fixpoint encode (alphabet : string) (data : list byte) : string :=
  match data with
  | [] => EmptyString
  | [a] =>
      let a := Byte.to_N a in
      String (sextet alphabet (N.shiftr a 2))
        (String (sextet alphabet (N.shiftl (N.land a 3) 4)) "==")
  | [a; b] =>
      let a := Byte.to_N a in
      let b := Byte.to_N b in
      String (sextet alphabet (N.shiftr a 2))
        (String (sextet alphabet
                   (N.lor (N.shiftl (N.land a 3) 4) (N.shiftr b 4)))
           (String (sextet alphabet (N.shiftl (N.land b 15) 2)) "="))
  | a :: b :: c :: rest =>
      let a := Byte.to_N a in
      let b := Byte.to_N b in
      let c := Byte.to_N c in
      String (sextet alphabet (N.shiftr a 2))
        (String (sextet alphabet
                   (N.lor (N.shiftl (N.land a 3) 4) (N.shiftr b 4)))
           (String (sextet alphabet
                      (N.lor (N.shiftl (N.land b 15) 2) (N.shiftr c 6)))
              (String (sextet alphabet (N.land c 63))
                 (encode alphabet rest))))
  end.

(** [base64.b64encode(data).decode()] *)
Definition b64encode (data : list byte) : string := encode standard data.

(** [base64.urlsafe_b64encode(data).decode('utf-8')] *)
Definition urlsafe_b64encode (data : list byte) : string :=
  encode urlsafe data.

End base64.

(** ** [configparser.ConfigParser]: the credential store in memory

    The mapping protocol of a parser made by [ConfigParser()]: sections of
    options whose values are strings, the [DEFAULT] section behind every
    other, option names folded to lower case, and [BasicInterpolation] of
    the values. *)

Module configparser.

Record t : Type := mk {
  defaults : gmap string string;
  sections : gmap string (gmap string string)
}.

Definition empty : t := mk ∅ ∅.

Definition default_section : string := "DEFAULT".

Definition optionxform (option : string) : string := Text.lower option.

(** [section in config] *)
Definition contains (config : t) (section : string) : bool :=
  String.eqb section default_section
  || bool_decide (is_Some (sections config !! section)).

(** The options that a read of [section] sees: its own, then the
    defaults. *)
Definition unify_values (config : t) (section : string)
  : gmap string string :=
  default ∅ (sections config !! section) ∪ defaults config.

(** [config.has_option(section, option)] *)
Definition has_option (config : t) (section option : string) : bool :=
  if String.eqb section default_section
  then bool_decide (is_Some (defaults config !! optionxform option))
  else
    match sections config !! section with
    | None => false
    | Some _ =>
        bool_decide
          (is_Some (unify_values config section !! optionxform option))
    end.

(** *** Interpolation *)

Inductive token : Type :=
| Char (c : ascii)      (* a character that stands for itself *)
| Percent               (* [%%] *)
| Reference (name : string)   (* [%(name)s] *)
| Malformed.            (* a [%] that starts none of the above *)

Inductive mode : Type :=
| Text
| AfterPercent
| InName (name : string)
| AfterName (name : string).

(** The reading of a value from left to right. With [escapes], [%%] is
    the escape of a percent sign, as when a value is read; without, a
    [%] must open a reference, as when a value is checked after its
    [%%] were removed. The reading stops at the first malformed [%]. *)
Fixpoint scan (escapes : bool) (m : mode) (s : string) : list token :=
  match s with
  | EmptyString =>
      match m with Text => [] | _ => [Malformed] end
  | String c rest =>
      match m with
      | Text =>
          if Ascii.eqb c "%" then scan escapes AfterPercent rest
          else Char c :: scan escapes Text rest
      | AfterPercent =>
          if Ascii.eqb c "%" && escapes then Percent :: scan escapes Text rest
          else if Ascii.eqb c "(" then scan escapes (InName "") rest
          else [Malformed]
      | InName name =>
          if Ascii.eqb c ")" then
            (if String.eqb name "" then [Malformed]
             else scan escapes (AfterName name) rest)
          else scan escapes (InName (name +:+ String c "")) rest
      | AfterName name =>
          if Ascii.eqb c "s" then Reference name :: scan escapes Text rest
          else [Malformed]
      end
  end.

(** [value.replace('%%', '')] *)
Fixpoint drop_escapes (s : string) : string :=
  match s with
  | String a (String b rest as tail) =>
      if Ascii.eqb a "%" && Ascii.eqb b "%" then drop_escapes rest
      else String a (drop_escapes tail)
  | _ => s
  end.

Definition well_formed (tokens : list token) : bool :=
  forallb (fun tk => match tk with Malformed => false | _ => true end) tokens.

(** [BasicInterpolation.before_set]: a value may be stored when, its
    [%%] removed, every [%] left opens a reference. *)
Definition before_set (value : string) : result string :=
  if well_formed (scan false Text (drop_escapes value)) then Ok value
  else Raise ValueError.

(** [BasicInterpolation.before_get], to the depth of ten that
    [MAX_INTERPOLATION_DEPTH] allows. *)
Fixpoint interpolate (depth : nat) (options : gmap string string)
    (value : string) : result string :=
  match depth with
  | O => Raise (LibraryError "InterpolationDepthError")
  | S depth' =>
      (fix expand (tokens : list token) : result string :=
         match tokens with
         | [] => Ok ""
         | Char c :: rest =>
             let? tail := expand rest in Ok (String c tail)
         | Percent :: rest =>
             let? tail := expand rest in Ok (String "%" tail)
         | Reference name :: rest =>
             match options !! optionxform name with
             | None => Raise (LibraryError "InterpolationMissingOptionError")
             | Some v =>
                 let? head :=
                   (if Text.contains "%" v then interpolate depth' options v
                    else Ok v) in
                 let? tail := expand rest in Ok (head +:+ tail)
             end
         | Malformed :: _ => Raise (LibraryError "InterpolationSyntaxError")
         end) (scan true Text value)
  end.

Definition before_get (options : gmap string string) (value : string)
  : result string :=
  interpolate 10 options value.

(** *** The mapping protocol *)

(** [config[section][option]] *)
Definition getitem (config : t) (section option : string) : result string :=
  if negb (contains config section) then Raise (KeyError (JStr section))
  else if negb (has_option config section option)
  then Raise (KeyError (JStr option))
  else
    let options := unify_values config section in
    match options !! optionxform option with
    | Some value => before_get options value
    | None => Raise (KeyError (JStr option))
    end.

(** [config[section] = {}] *)
Definition setitem_empty (config : t) (section : string) : t :=
  if String.eqb section default_section then mk ∅ (sections config)
  else mk (defaults config) (<[section := ∅]> (sections config)).

(** [config[section][option] = value]: the value must be a [str] that
    [before_set] accepts (the empty string is not checked). *)
Definition setitem (config : t) (section option : string) (value : json)
  : result t :=
  if negb (contains config section) then Raise (KeyError (JStr section))
  else
    match value with
    | JStr s =>
        let? s := (if String.eqb s "" then Ok s else before_set s) in
        let name := optionxform option in
        if String.eqb section default_section
        then Ok (mk (<[name := s]> (defaults config)) (sections config))
        else Ok (mk (defaults config)
                    (<[section :=
                         <[name := s]> (default ∅ (sections config !! section))]>
                       (sections config)))
    | _ => Raise TypeError
    end.

(** The text an option holds in its own section, before interpolation:
    [config.get(section, name, raw=True)] without the defaults. *)
Definition raw (config : t) (section name : string) : option string :=
  sections config !! section ≫= (.!! optionxform name).

(** The strings that [config[section][option] = value] accepts. *)
Definition storable (value : string) : bool :=
  String.eqb value "" || well_formed (scan false Text (drop_escapes value)).

(** The store from its sections, for examples. *)
Definition of_sections (l : list (string * list (string * string))) : t :=
  mk ∅ (list_to_map (map (fun '(name, options) =>
                            (name, list_to_map options)) l)).

End configparser.

(** ** The process and its surroundings *)

(** The value of a header: a string, or the f-string [f'{prefix}{value}']
    around a value that the program formats without looking at it. *)
Inductive header_value : Type :=
| Plain (s : string)
| Formatted (prefix : string) (value : json).

(** A call of [requests.post(url, headers=..., data=...)] or of
    [requests.get(url, params=..., headers=...)]; [payload] is the form
    or the query. *)
Record request : Type := mk_request {
  method : string;
  url : string;
  headers : list (string * header_value);
  payload : list (string * json)
}.

(** What the program looks at in a response: [status_code] and what
    [json()] gives, a value or the fault of a body that is not JSON. *)
Record response : Type := mk_response {
  status_code : Z;
  body : result json
}.

(** What a file holds: a store as [ConfigParser.write] leaves it, or the
    text of [json.dump(document, f, indent=...)]. *)
Inductive file_content : Type :=
| ConfigFile (config : configparser.t)
| JsonText (document : json) (indent : Z).

(** The credentials of the S3 client that [boto3.client] builds. *)
Record s3_client : Type := mk_client {
  aws_access_key_id : string;
  aws_secret_access_key : string;
  region_name : string
}.

(** The arguments of [s3_client.put_object]. *)
Record s3_object : Type := mk_object {
  Bucket : string;
  Key : string;
  Body : file_content;
  ContentType : string
}.

Inductive event : Type :=
| Http (sent : request) (outcome : result response)
| Printed (line : string)
| Prompted (prompt : string) (typed : result string)
| Slept (seconds : Z)
| Wrote (file : string) (content : file_content)
| Put (client : s3_client) (object : s3_object) (outcome : result unit).

(** The answers of the surroundings, each a script read from position 0:
    the readings of [datetime.now()], the whole seconds from the epoch
    to the second of a local date-time in the zone of the process (a C
    [long long] inside [d.timestamp()]), the
    bytes of the random source, the outcomes of the HTTP requests, the
    lines typed at [input()], the outcomes of the uploads. *)
Record environment : Type := mk_environment {
  clock : nat → datetime.t;
  epoch_seconds : datetime.t → Z;
  entropy : nat → byte;
  network : nat → result response;
  keyboard : nat → result string;
  object_store : nat → result unit
}.

(** The state of the run: the surroundings still to come, the attributes
    of the one [SpotifyScraper] object, the files in the working
    directory, and what the process has done so far, oldest first. *)
Record world : Type := mk_world {
  env : environment;
  config : configparser.t;
  client_id : string;
  redirect_uri : string;
  disk : gmap string file_content;
  trace : list event
}.

Definition M (A : Type) : Type := world → result A * world.

Definition ret {A} (a : A) : M A := fun w => (Ok a, w).

Definition raise {A} (e : exception) : M A := fun w => (Raise e, w).

Definition bind {A B} (m : M A) (k : A → M B) : M B :=
  fun w =>
    match m w with
    | (Ok a, w') => k a w'
    | (Raise e, w') => (Raise e, w')
    end.

(** A Python expression evaluated in the current state. *)
Definition eval {A} (f : world → result A) : M A := fun w => (f w, w).

Notation "'let*' x ':=' m 'in' k" := (bind m (fun x => k))
  (at level 10, x name, m at level 100, k at level 200).
Notation "m ';;' k" := (bind m (fun _ => k))
  (at level 100, k at level 200, right associativity).

Module Process.

Definition shift {A} (n : nat) (script : nat → A) : nat → A :=
  fun i => script (n + i)%nat.

Definition set_env (e : environment) (w : world) : world :=
  mk_world e (config w) (client_id w) (redirect_uri w) (disk w) (trace w).

Definition set_config (c : configparser.t) (w : world) : world :=
  mk_world (env w) c (client_id w) (redirect_uri w) (disk w) (trace w).

Definition set_disk (d : gmap string file_content) (w : world) : world :=
  mk_world (env w) (config w) (client_id w) (redirect_uri w) d (trace w).

Definition log (ev : event) (w : world) : world :=
  mk_world (env w) (config w) (client_id w) (redirect_uri w) (disk w)
           (trace w ++ [ev]).

(** [datetime.now()] *)
Definition now : M datetime.t :=
  fun w =>
    let e := env w in
    (Ok (clock e 0%nat),
     set_env (mk_environment (shift 1 (clock e)) (epoch_seconds e) (entropy e)
                (network e) (keyboard e) (object_store e)) w).

(** [secrets.token_bytes(n)] *)
Definition token_bytes (n : nat) : M (list byte) :=
  fun w =>
    let e := env w in
    (Ok (map (entropy e) (seq 0 n)),
     set_env (mk_environment (clock e) (epoch_seconds e) (shift n (entropy e))
                (network e) (keyboard e) (object_store e)) w).

(** A request sent: the surroundings decide the outcome, a response or
    the exception that [requests] raises. *)
Definition send (req : request) : M response :=
  fun w =>
    let e := env w in
    let outcome := network e 0%nat in
    (outcome,
     log (Http req outcome)
       (set_env (mk_environment (clock e) (epoch_seconds e) (entropy e)
                   (shift 1 (network e)) (keyboard e) (object_store e)) w)).

(** [print(line)] *)
Definition print (line : string) : M unit :=
  fun w => (Ok tt, log (Printed line) w).

(** [input(prompt)] *)
Definition input (prompt : string) : M string :=
  fun w =>
    let e := env w in
    let typed := keyboard e 0%nat in
    (typed,
     log (Prompted prompt typed)
       (set_env (mk_environment (clock e) (epoch_seconds e) (entropy e)
                   (network e) (shift 1 (keyboard e)) (object_store e)) w)).

(** [sleep(seconds)] *)
Definition sleep (seconds : Z) : M unit :=
  fun w => (Ok tt, log (Slept seconds) w).

(** [with open(file, 'w') as f:] and the one write of [content] to [f]. *)
Definition write_file (file : string) (content : file_content) : M unit :=
  fun w =>
    (Ok tt, log (Wrote file content) (set_disk (<[file := content]> (disk w)) w)).

(** [s3_client.put_object(...)] *)
Definition put_object (client : s3_client) (object : s3_object) : M unit :=
  fun w =>
    let e := env w in
    let outcome := object_store e 0%nat in
    (outcome,
     log (Put client object outcome)
       (set_env (mk_environment (clock e) (epoch_seconds e) (entropy e)
                   (network e) (keyboard e) (shift 1 (object_store e))) w)).

(** [self.config[section][option]] *)
Definition config_get (section option : string) : M string :=
  eval (fun w => configparser.getitem (config w) section option).

(** [self.config[section][option] = value] *)
Definition config_set (section option : string) (value : json) : M unit :=
  fun w =>
    match configparser.setitem (config w) section option value with
    | Ok c => (Ok tt, set_config c w)
    | Raise e => (Raise e, w)
    end.

End Process.

(** ** Built-ins on values, and [urlencode] *)

Module Builtins.

(** [bool(v)] *)
Definition truthy (v : json) : bool :=
  match v with
  | JNull => false
  | JBool b => b
  | JInt n => negb (n =? 0)
  | JStr s => negb (String.eqb s "")
  | JList items => match items with [] => false | _ => true end
  | JObj members => match members with [] => false | _ => true end
  end.

(** [len(v)] *)
Definition len (v : json) : result Z :=
  match v with
  | JStr s => Ok (Z.of_nat (String.length s))
  | JList items => Ok (Z.of_nat (List.length items))
  | JObj members => Ok (Z.of_nat (List.length members))
  | _ => Raise TypeError
  end.

(** The blanks around a literal of [int]: the white space of ASCII, and
    the two other blanks below 256. The separators 28 to 31, which
    [str.isspace] accepts, are not among them. *)
Definition is_blank (c : ascii) : bool :=
  let n := nat_of_ascii c in
  ((9 <=? n) && (n <=? 13) || (n =? 32) || (n =? 133) || (n =? 160))%nat.

Fixpoint all_space (s : string) : bool :=
  match s with
  | EmptyString => true
  | String c rest => is_blank c && all_space rest
  end.

Fixpoint skip_blanks (s : string) : string :=
  match s with
  | String c rest => if is_blank c then skip_blanks rest else s
  | EmptyString => s
  end.

(** The digits of a decimal literal, single underscores allowed between
    them, and the blanks that may follow. *)
Fixpoint literal (acc : Z) (after_digit : bool) (s : string) : option Z :=
  match s with
  | EmptyString => if after_digit then Some acc else None
  | String c rest =>
      if Text.is_digit c then literal (acc * 10 + Text.digit_value c) true rest
      else if Ascii.eqb c "_" && after_digit then literal acc false rest
      else if after_digit && all_space s then Some acc
      else None
  end.

(** The digits of [s], whatever stands between them. *)
Fixpoint count_digits (s : string) : Z :=
  match s with
  | EmptyString => 0
  | String c rest =>
      (if Text.is_digit c then 1 else 0) + count_digits rest
  end.

(** [sys.get_int_max_str_digits()], which the program leaves at its
    default. *)
Definition int_max_str_digits : Z := 4300.

(** [int(s)] for a [str]: a literal of more than [int_max_str_digits]
    digits, leading zeros counted, is a [ValueError] like a text that is
    no literal. *)
Definition int_of_str (s : string) : result Z :=
  let parsed :=
    match skip_blanks s with
    | String "-" rest => option_map Z.opp (literal 0 false rest)
    | String "+" rest => literal 0 false rest
    | rest => literal 0 false rest
    end in
  match parsed with
  | Some n =>
      if count_digits s <=? int_max_str_digits then Ok n else Raise ValueError
  | None => Raise ValueError
  end.

(** [int(v)] *)
Definition int (v : json) : result Z :=
  match v with
  | JInt n => Ok n
  | JBool b => Ok (if b then 1 else 0)
  | JStr s => int_of_str s
  | _ => Raise TypeError
  end.

Definition upper_hex (n : N) : ascii :=
  if (n <? 10)%N then ascii_of_N (48 + n) else ascii_of_N (55 + n).

Definition unreserved (b : byte) : bool :=
  let n := Byte.to_N b in
  ((48 <=? n) && (n <=? 57) || (65 <=? n) && (n <=? 90)
   || (97 <=? n) && (n <=? 122)
   || (n =? 45) || (n =? 46) || (n =? 95) || (n =? 126))%N.

(** [quote_plus(s)] *)
Definition quote_plus (s : string) : string :=
  fold_right
    (fun b acc =>
       if unreserved b then String (ascii_of_byte b) acc
       else if Byte.eqb b x20 then String "+" acc
       else String "%" (String (upper_hex (Byte.to_N b / 16))
                          (String (upper_hex (Byte.to_N b mod 16)) acc)))
    "" (Text.encode s).

(** [urlencode(params)] for a dict of [str] values. *)
Fixpoint urlencode (params : list (string * string)) : string :=
  match params with
  | [] => ""
  | [(k, v)] => quote_plus k +:+ "=" +:+ quote_plus v
  | (k, v) :: rest =>
      quote_plus k +:+ "=" +:+ quote_plus v +:+ "&" +:+ urlencode rest
  end.

End Builtins.

(** ** [class SpotifyScraper] *)

Module SpotifyScraper.
Import Process.

(** [__init__]: the store is read from ['.env'] (a file that is missing
    leaves it empty), then [client_id] is taken from it. *)
Definition __init__ : M unit :=
  let* stored :=
    eval (fun w =>
            match disk w !! ".env" with
            | None => Ok configparser.empty
            | Some (ConfigFile c) => Ok c
            | Some (JsonText _ _) =>
                Raise (LibraryError "MissingSectionHeaderError")
            end) in
  (fun w => (Ok tt, set_config stored w));;
  let* id := config_get "SPOTIFY" "client_id" in
  fun w =>
    (Ok tt,
     mk_world (env w) (config w) id "http://localhost:3000" (disk w) (trace w)).

Definition _update_token (access_token refresh_token : json) : M unit :=
  (fun w =>
     if negb (configparser.contains (config w) "SPOTIFY")
     then (Ok tt, set_config (configparser.setitem_empty (config w) "SPOTIFY") w)
     else (Ok tt, w));;
  config_set "SPOTIFY" "access_token" access_token;;
  config_set "SPOTIFY" "refresh_token" refresh_token;;
  let* stamp := now in
  config_set "SPOTIFY" "last_date_token"
    (JStr (datetime.strftime_dmY_HMS stamp));;
  let* store := eval (fun w => Ok (config w)) in
  write_file ".env" (ConfigFile store).

(** The PKCE pair of [_new_login] from the random bytes (lines 37-43). *)
Definition code_verifier_of (seed : list byte) : string :=
  Text.rstrip "=" (base64.urlsafe_b64encode (hashlib.sha256 seed)).

Definition code_challenge_of (code_verifier : string) : string :=
  Text.rstrip "="
    (base64.urlsafe_b64encode (hashlib.sha256 (Text.encode code_verifier))).

Definition auth_url : string := "https://accounts.spotify.com/authorize".

Definition token_url : string := "https://accounts.spotify.com/api/token".

Definition _new_login : M json :=
  let* seed := token_bytes 32 in
  let code_verifier := code_verifier_of seed in
  let code_challenge := code_challenge_of code_verifier in
  let scope := "user-read-recently-played" in
  let* self_client_id := eval (fun w => Ok (client_id w)) in
  let* self_redirect_uri := eval (fun w => Ok (redirect_uri w)) in
  let auth_params :=
    [ ("response_type", "code");
      ("client_id", self_client_id);
      ("redirect_uri", self_redirect_uri);
      ("scope", scope);
      ("code_challenge", code_challenge);
      ("code_challenge_method", "S256") ] in
  print "Open this URL in your browser to authorize the application:";;
  print (auth_url +:+ "?" +:+ Builtins.urlencode auth_params);;
  let* auth_code := input "Paste the authorization code here: " in
  let data :=
    [ ("grant_type", JStr "authorization_code");
      ("code", JStr auth_code);
      ("redirect_uri", JStr self_redirect_uri);
      ("client_id", JStr self_client_id);
      ("code_verifier", JStr code_verifier) ] in
  let* response := send (mk_request "POST" token_url [] data) in
  if negb (status_code response =? 200)
  then raise (Exception "Failed to get access token.")
  else
    let* access_token := eval (fun _ => body response ∙ "access_token") in
    let* refresh_token :=
      eval (fun _ => let? b := body response in
                     Py.get b "refresh_token" JNull) in
    _update_token access_token refresh_token;;
    ret access_token.

Definition renew_access_token : M json :=
  let* refresh_token := config_get "SPOTIFY" "refresh_token" in
  let* client_id := config_get "SPOTIFY" "client_id" in
  let* client_secret := config_get "SPOTIFY" "client_secret" in
  let client_creds := client_id +:+ ":" +:+ client_secret in
  let client_creds_b64 := base64.b64encode (Text.encode client_creds) in
  let headers :=
    [ ("Content-Type", Plain "application/x-www-form-urlencoded");
      ("Authorization", Plain ("Basic " +:+ client_creds_b64)) ] in
  let data :=
    [ ("grant_type", JStr "refresh_token");
      ("refresh_token", JStr refresh_token) ] in
  let* response := send (mk_request "POST" token_url headers data) in
  if status_code response =? 200
  then
    let* access_token := eval (fun _ => body response ∙ "access_token") in
    let* new_refresh_token :=
      eval (fun _ => body response ∙ "refresh_token") in
    _update_token access_token new_refresh_token;;
    ret access_token
  else ret JNull.

Definition get_access_token : M json :=
  let* access_token := renew_access_token in
  if negb (Builtins.truthy access_token) then _new_login
  else ret access_token.

Definition _verify_valid_token : M bool :=
  let* text := config_get "SPOTIFY" "last_date_token" in
  let* last_date_token := eval (fun _ => datetime.strptime_dmY_HMS text) in
  let* now_date := now in
  let time_active_token_in_minutes :=
    py_round (datetime.total_seconds (datetime.sub now_date last_date_token)
              / inject_Z 60)%Q in
  if 60 <? time_active_token_in_minutes then ret false else ret true.

Definition save_to_s3 (data : json) : M unit :=
  let* key_id := config_get "AWS" "AWS_ACCESS_KEY_ID" in
  let* secret := config_get "AWS" "AWS_SECRET_ACCESS_KEY" in
  let* region := config_get "AWS" "AWS_REGION" in
  let s3_client := mk_client key_id secret region in
  let* bucket_name := config_get "AWS" "S3_BUCKET_NAME" in
  let* stamp := now in
  let timestamp := datetime.strftime_Ymd_HMS stamp in
  let filename := "tracks_history_" +:+ timestamp +:+ ".json" in
  let json_data := JsonText data 4 in
  put_object s3_client
    (mk_object bucket_name filename json_data "application/json");;
  print ("Arquivo salvo no S3: " +:+ bucket_name +:+ "/" +:+ filename).

Definition history_url : string :=
  "https://api.spotify.com/v1/me/player/recently-played".

(** Lines 147 to 150: the token that the request will carry. *)
Definition token_for_request : M json :=
  let* fresh := _verify_valid_token in
  if fresh
  then let* stored := config_get "SPOTIFY" "access_token" in ret (JStr stored)
  else get_access_token.

Definition get_tracks_history (unix_date : Z) : M Z :=
  let limit := 50 in
  let before := unix_date in
  let* access_token := token_for_request in
  let params := [ ("limit", JInt limit); ("before", JInt before) ] in
  let header := [ ("Authorization", Formatted "Bearer " access_token) ] in
  let* response := send (mk_request "GET" history_url header params) in
  let* count :=
    eval (fun _ => let? items := body response ∙ "items" in
                   Builtins.len items) in
  if count =? 0 then ret 0
  else
    let* before :=
      eval (fun _ => let? b := body response ∙ "cursors" ∙ "before" in
                     Builtins.int b) in
    let* data := eval (fun _ => body response ∙ "items") in
    write_file "resultado.json" (JsonText data 4);;
    save_to_s3 data;;
    ret before.

(** *** [get_data]: one raw play item to a flat record *)

(** [x is None] *)
Definition is_None (v : json) : bool :=
  match v with JNull => true | _ => false end.

(** The entries of [output_data] from ['id_album'] to ['played_at']
    (lines 206 to 220), evaluated in the order of the dict display. *)
Definition track_entries (data : json) : result (list (string * json)) :=
  let? album_data := Ok data ∙ "track" ∙ "album" in
  let? id_album := Ok album_data ∙ "id" in
  let? name_album := Ok album_data ∙ "name" in
  let? release_date := Ok album_data ∙ "release_date" in
  let? total_tracks := Ok album_data ∙ "total_tracks" in
  let? album_type := Ok album_data ∙ "album_type" in
  let? image_album := Ok album_data ∙ "images" ∙# 1 ∙ "url" in
  let? artist_album_id := Ok album_data ∙ "artists" ∙# 0 ∙ "id" in
  let? artist_album_name := Ok album_data ∙ "artists" ∙# 0 ∙ "name" in
  let? duration_ms := Ok data ∙ "track" ∙ "duration_ms" in
  let? explicit := Ok data ∙ "track" ∙ "explicit" in
  let? track_id := Ok data ∙ "track" ∙ "id" in
  let? is_local := Ok data ∙ "track" ∙ "is_local" in
  let? track_name := Ok data ∙ "track" ∙ "name" in
  let? popularity := Ok data ∙ "track" ∙ "popularity" in
  let? played_at := Ok data ∙ "played_at" in
  Ok [ ("id_album", id_album);
       ("name_album", name_album);
       ("release_date", release_date);
       ("total_tracks", total_tracks);
       ("album_type", album_type);
       ("image_album", image_album);
       ("artist_album_id", artist_album_id);
       ("artist_album_name", artist_album_name);
       ("duration_ms", duration_ms);
       ("explicit", explicit);
       ("track_id", track_id);
       ("is_local", is_local);
       ("track_name", track_name);
       ("popularity", popularity);
       ("played_at", played_at) ].

(** The two entries computed from [data['context']] (lines 221 to 224):
    each is a conditional expression, whose test [data['context'] is None]
    is evaluated before the branch it selects. *)
Definition context_entries (data : json) : result (list (string * json)) :=
  let? type :=
    (let? context := Ok data ∙ "context" in
     if negb (is_None context) then Ok data ∙ "context" ∙ "type"
     else Ok (JStr "null")) in
  let? playlist_url :=
    (let? context := Ok data ∙ "context" in
     if negb (is_None context)
     then Ok data ∙ "context" ∙ "external_urls" ∙ "spotify"
     else Ok (JStr "null")) in
  Ok [ ("type", type); ("playlist_url", playlist_url) ].

Definition get_data (data : json) : result json :=
  let? track := track_entries data in
  let? context := context_entries data in
  let output_data := JObj (track ++ context) in
  Ok output_data.

End SpotifyScraper.

(** ** [main]

    The [while] loop runs for as long as the pages keep coming; the model
    runs at most [fuel] iterations of it. [None] is the end of the loop,
    [Some next_page] a loop stopped by the model before the request for
    [next_page]. *)

Fixpoint while_next_page (fuel : nat) (next_page : Z) : M (option Z) :=
  if next_page =? 0 then ret None
  else
    match fuel with
    | O => ret (Some next_page)
    | S fuel' =>
        let* next_page := SpotifyScraper.get_tracks_history next_page in
        Process.sleep 2;;
        while_next_page fuel' next_page
    end.

(** [d.timestamp()] for a date-time without zone: the seconds that the
    zone gives, as a double, plus the double [microsecond / 1e6]. *)
Definition timestamp (e : environment) (d : datetime.t) : Q :=
  float.add (float.of_int (epoch_seconds e d))
    (float.div (float.of_int (datetime.microsecond d)) (float.of_int 1000000)).

(** [int(round(d.timestamp() * 1000))]: the product is a float, rounded
    before [round] sees it. *)
Definition epoch_milliseconds (e : environment) (d : datetime.t) : Z :=
  py_round (float.mul (timestamp e d) (float.of_int 1000)).

Definition main (fuel : nat) : M (option Z) :=
  let* date_now := Process.now in
  let* date_now := eval (fun w => Ok (epoch_milliseconds (env w) date_now)) in
  SpotifyScraper.__init__;;
  let next_page := date_now in
  while_next_page fuel next_page.

(** ** Sample data *)

Module Sample.

(** A play item as the history endpoint sends it, cut down to the fields
    that [get_data] reads. *)
Definition item_with (images artists : list json) (context : json) : json :=
  JObj [ ("track", JObj [
            ("album", JObj [
               ("id", JStr "4aawyAB9vmqN3uQ7FjRGTy");
               ("name", JStr "Global Warming");
               ("release_date", JStr "2012-11-16");
               ("total_tracks", JInt 18);
               ("album_type", JStr "album");
               ("images", JList images);
               ("artists", JList artists) ]);
            ("duration_ms", JInt 204160);
            ("explicit", JBool false);
            ("id", JStr "11dFghVXANMlKmJXsNCbNl");
            ("is_local", JBool false);
            ("name", JStr "Feel This Moment");
            ("popularity", JInt 74) ]);
         ("played_at", JStr "2023-11-14T22:13:20.000Z");
         ("context", context) ].

Definition image (size : Z) : json :=
  JObj [ ("url", JStr ("https://i.scdn.co/image/" +:+ Text.decimal size));
         ("height", JInt size); ("width", JInt size) ].

Definition example_artist : json :=
  JObj [ ("id", JStr "0TnOYISbd1XYRBk9myaseg"); ("name", JStr "Pitbull") ].

Definition example_item (context : json) : json :=
  item_with [image 640; image 300; image 64] [example_artist] context.

(** An album with a single image, and one with no artist. *)
Definition one_image : json := item_with [image 640] [example_artist] JNull.

Definition no_artist : json := item_with [image 640; image 300] [] JNull.

Definition example_context : json :=
  JObj [ ("type", JStr "playlist");
         ("external_urls", JObj [
            ("spotify", JStr "https://open.spotify.com/playlist/37i9dQZF1DX") ]);
         ("uri", JStr "spotify:playlist:37i9dQZF1DX") ].

End Sample.

Module Scenario.

(** The store of a run that has logged in before. *)
Definition store (last_date_token : string) : configparser.t :=
  configparser.of_sections
    [ ("SPOTIFY",
       [ ("client_id", "f3a1c0de"); ("client_secret", "5ecr3t");
         ("access_token", "BQDold"); ("refresh_token", "AQCold");
         ("last_date_token", last_date_token) ]);
      ("AWS",
       [ ("aws_access_key_id", "AKIAEXAMPLE");
         ("aws_secret_access_key", "wJalrXUt");
         ("aws_region", "sa-east-1");
         ("s3_bucket_name", "wrapped-raw") ]) ].

(** A clock that reads [first] and then gains [step] seconds a reading,
    for a run within one hour of the day. *)
Definition ticking (first : datetime.t) (step : Z) (n : nat) : datetime.t :=
  let s := datetime.minute first * 60 + datetime.second first
           + step * Z.of_nat n in
  datetime.mk (datetime.year first) (datetime.month first)
    (datetime.day first) (datetime.hour first) (s / 60) (s mod 60)
    (datetime.microsecond first).

(** The seconds from the epoch to the second of a date-time, in a zone
    without offset. *)
Definition utc (d : datetime.t) : Z :=
  (datetime.microseconds d - datetime.microsecond d
   - datetime.microseconds (datetime.mk 1970 1 1 0 0 0 0)) / 1000000.

(** The answers, in order, then a network that is down. *)
Definition scripted {A} (answers : list A) (after : A) (n : nat) : A :=
  nth n answers after.

Definition surroundings (first : datetime.t)
    (responses : list (result response)) (typed : list (result string))
  : environment :=
  mk_environment (ticking first 1) utc (fun _ => x00)
    (scripted responses (Raise (LibraryError "ConnectionError")))
    (scripted typed (Raise EOFError))
    (fun _ => Ok tt).

Definition start (store : configparser.t) (e : environment) : world :=
  mk_world e store "f3a1c0de" "http://localhost:3000"
    {[ ".env" := ConfigFile store ]} [].

Definition page (items : list json) (before : json) : result response :=
  Ok (mk_response 200
        (Ok (JObj [ ("items", JList items);
                    ("cursors", JObj [("after", JStr "0"); ("before", before)]);
                    ("limit", JInt 50) ]))).

Definition last_page : result response :=
  Ok (mk_response 200 (Ok (JObj [ ("items", JList []); ("limit", JInt 50) ]))).

End Scenario.

(** ** What the properties are stated with *)

(** The characters of the URL-safe base64 alphabet. *)
Definition url_safe_char (c : ascii) : bool :=
  let n := nat_of_ascii c in
  ((48 <=? n) && (n <=? 57) || (65 <=? n) && (n <=? 90)
   || (97 <=? n) && (n <=? 122) || (n =? 45) || (n =? 95))%nat.

Fixpoint url_safe (s : string) : bool :=
  match s with
  | EmptyString => true
  | String c rest => url_safe_char c && url_safe rest
  end.

(** The padding that base64 puts after [n] bytes. *)
Definition padding (n : nat) : string :=
  match (n mod 3)%nat with
  | O => ""
  | 1%nat => "=="
  | _ => "="
  end.

(** [w'] comes after [w] by events that all satisfy [P], and a file that
    [P] lets nobody write is as it was. *)
Definition only (P : event → Prop) (w w' : world) : Prop :=
  ∃ new, trace w' = trace w ++ new ∧ Forall P new
         ∧ ∀ file, (∀ content, ¬ P (Wrote file content)) →
                   disk w' !! file = disk w !! file.

(** Every run of [m] stays within [P]. *)
Definition within (P : event → Prop) {A} (m : M A) : Prop :=
  ∀ w, only P w (m w).2.

(** The events of the token life cycle: what is shown and typed at the
    login, the requests to the token endpoint, the store written back. *)
Definition token_event (ev : event) : Prop :=
  match ev with
  | Printed _ | Prompted _ _ => True
  | Http sent _ => method sent = "POST" ∧ url sent = SpotifyScraper.token_url
  | Wrote file _ => file = ".env"
  | _ => False
  end.

(** The events that reach a sink: a write of the local file, an upload. *)
Definition sink_event (ev : event) : bool :=
  match ev with
  | Wrote file _ => String.eqb file "resultado.json"
  | Put _ _ _ => true
  | _ => false
  end.

Definition sinks (w : world) : list event := List.filter sink_event (trace w).

(** The driver loop seen from outside: the history requests with the
    cursor they carry, and the pauses. *)
Inductive step : Type :=
| Fetched (cursor : Z) (outcome : result response)
| Paused (seconds : Z).

Definition step_of (ev : event) : option step :=
  match ev with
  | Http sent outcome =>
      if String.eqb (method sent) "GET"
      then match Py.assoc "before" (payload sent) with
           | Some (JInt cursor) => Some (Fetched cursor outcome)
           | _ => None
           end
      else None
  | Slept seconds => Some (Paused seconds)
  | _ => None
  end.

Definition steps (events : list event) : list step := omap step_of events.

(** An event that is no step of the loop. *)
Definition quiet (ev : event) : Prop := step_of ev = None.

(** What [get_tracks_history] returns for a response (lines 163 to 166
    and 175). *)
Definition next_page_of (resp : response) : result Z :=
  let? count := (let? items := body resp ∙ "items" in Builtins.len items) in
  if count =? 0 then Ok 0
  else let? before := body resp ∙ "cursors" ∙ "before" in Builtins.int before.

(** The steps of a loop whose next request is due with [cursor]: a request
    carries the cursor that is due, which is not zero; a pause comes only
    after a request that was answered, lasts two seconds, and what follows
    it is due with the cursor that the answer gave. *)
Fixpoint follows (cursor : Z) (l : list step) : Prop :=
  match l with
  | [] => True
  | Fetched c outcome :: rest =>
      c = cursor ∧ cursor ≠ 0
      ∧ match rest with
        | [] => True
        | Paused seconds :: rest' =>
            seconds = 2
            ∧ ∃ resp next_page,
                outcome = Ok resp ∧ next_page_of resp = Ok next_page
                ∧ follows next_page rest'
        | Fetched _ _ :: _ => False
        end
  | Paused _ :: _ => False
  end.

(** What a successful [_update_token] leaves behind. *)
Definition token_persisted (w w' : world) (access_token refresh_token : string)
  : Prop :=
  configparser.raw (config w') "SPOTIFY" "access_token" = Some access_token
  ∧ configparser.raw (config w') "SPOTIFY" "refresh_token" = Some refresh_token
  ∧ configparser.raw (config w') "SPOTIFY" "last_date_token"
    = Some (datetime.strftime_dmY_HMS (clock (env w) 0))
  ∧ disk w' = <[".env" := ConfigFile (config w')]> (disk w)
  ∧ trace w' = trace w ++ [Wrote ".env" (ConfigFile (config w'))].

(** [IndexError] or [KeyError]. *)
Definition out_of_range_or_missing_key (e : exception) : Prop :=
  e = IndexError ∨ ∃ key, e = KeyError key.

(** ** Runs used as examples *)

Module Run.

(** A store last refreshed at 22:00:00 and a clock that reads 23:00:20:
    sixty minutes and twenty seconds later. *)
Definition late : world :=
  Scenario.start (Scenario.store "14/11/2023 22:00:00")
    (Scenario.surroundings (datetime.mk 2023 11 14 23 0 20 0) [] []).

(** A refresh answered with 200 and the pair "A", "R". *)
Definition refreshed : response :=
  mk_response 200
    (Ok (JObj [ ("access_token", JStr "A"); ("token_type", JStr "Bearer");
                ("expires_in", JInt 3600); ("refresh_token", JStr "R") ])).

Definition refreshing : world :=
  Scenario.start (Scenario.store "14/11/2023 21:00:00")
    (Scenario.surroundings (datetime.mk 2023 11 14 22 13 20 0)
       [Ok refreshed] []).

(** A refresh refused. *)
Definition refused : response :=
  mk_response 400 (Ok (JObj [ ("error", JStr "invalid_grant") ])).

Definition refusing : world :=
  Scenario.start (Scenario.store "14/11/2023 21:00:00")
    (Scenario.surroundings (datetime.mk 2023 11 14 22 13 20 0)
       [Ok refused] [Ok "AQBcode"]).

(** A token answer of status 200 without a refresh token. *)
Definition partial : response :=
  mk_response 200
    (Ok (JObj [ ("access_token", JStr "A"); ("token_type", JStr "Bearer");
                ("expires_in", JInt 3600) ])).

Definition partial_refresh : world :=
  Scenario.start (Scenario.store "14/11/2023 21:00:00")
    (Scenario.surroundings (datetime.mk 2023 11 14 22 13 20 0)
       [Ok partial] []).

Definition partial_login : world :=
  Scenario.start (Scenario.store "14/11/2023 21:00:00")
    (Scenario.surroundings (datetime.mk 2023 11 14 22 13 20 0)
       [Ok partial] [Ok "AQBcode"]).

(** A page of two items, and the world of a fresh token that gets it. *)
Definition two_items : list json :=
  [ Sample.example_item JNull; Sample.example_item Sample.example_context ].

Definition fresh (responses : list (result response)) : world :=
  Scenario.start (Scenario.store "14/11/2023 22:00:00")
    (Scenario.surroundings (datetime.mk 2023 11 14 22 13 20 0) responses []).

Definition answered (resp : result response) : response :=
  match resp with
  | Ok r => r
  | Raise _ => mk_response 0 (Raise (LibraryError "ConnectionError"))
  end.

(** The same world with an object store that refuses every upload. *)
Definition offline_store (w : world) : world :=
  Process.set_env
    (mk_environment (clock (env w)) (epoch_seconds (env w)) (entropy (env w))
       (network (env w)) (keyboard (env w))
       (fun _ => Raise (LibraryError "EndpointConnectionError"))) w.

(** A store whose AWS section names no bucket. *)
Definition store_without_bucket : configparser.t :=
  configparser.of_sections
    [ ("SPOTIFY",
       [ ("client_id", "f3a1c0de"); ("client_secret", "5ecr3t");
         ("access_token", "BQDold"); ("refresh_token", "AQCold");
         ("last_date_token", "14/11/2023 22:00:00") ]);
      ("AWS",
       [ ("aws_access_key_id", "AKIAEXAMPLE");
         ("aws_secret_access_key", "wJalrXUt");
         ("aws_region", "sa-east-1") ]) ].

(** A store that has never held a token. *)
Definition store_before_login : configparser.t :=
  configparser.of_sections
    [ ("SPOTIFY", [ ("client_id", "f3a1c0de"); ("client_secret", "5ecr3t") ]) ].

(** A login answered with 200 and the pair "A", "R". *)
Definition logging_in : world :=
  Scenario.start (Scenario.store "14/11/2023 21:00:00")
    (Scenario.surroundings (datetime.mk 2023 11 14 22 13 20 0)
       [Ok refreshed] [Ok "AQBcode"]).

(** A refresh refused, then a login answered with the pair. *)
Definition falling_back : world :=
  Scenario.start (Scenario.store "14/11/2023 21:00:00")
    (Scenario.surroundings (datetime.mk 2023 11 14 22 13 20 0)
       [Ok refused; Ok refreshed] [Ok "AQBcode"]).

(** A refresh answered with 200 and an empty access token, then a login. *)
Definition empty_token : response :=
  mk_response 200
    (Ok (JObj [ ("access_token", JStr ""); ("refresh_token", JStr "R") ])).

Definition refreshing_empty : world :=
  Scenario.start (Scenario.store "14/11/2023 21:00:00")
    (Scenario.surroundings (datetime.mk 2023 11 14 22 13 20 0)
       [Ok empty_token; Ok refreshed] [Ok "AQBcode"]).

End Run.

(** ** Checks of the library models against Python *)

Example decimal_cursor : Text.decimal 1699999000000 = "1699999000000".
Proof. reflexivity. Qed.

Example rstrip_sample : Text.rstrip "=" "a=b==" = "a=b".
Proof. reflexivity. Qed.

Example encode_e_acute :
  Text.encode (String (ascii_of_nat 233) "") = [xc3; xa9].
Proof. reflexivity. Qed.

Example round_ties :
  map py_round [Qmake 121 2; Qmake 123 2; Qmake 181 3; Qmake (Z.opp 1) 2; Qmake 1 2; Qmake 3 2]
  = [60; 62; 60; 0; 0; 2].
Proof. reflexivity. Qed.

Example strptime_samples :
  map datetime.strptime_dmY_HMS
    [ "1/1/2024 0:0:59"; "01/01/2024 00:00:61"; " 1/1/2024 0:0:7";
      "1/1/2024  0:0:7"; "1/1/2024 0:0:75"; "39/1/2024 0:0:7";
      "1/1/0999 0:0:7"; "1/1/0000 0:0:7"; "29/2/2023 0:0:0";
      "14/11/2023 22:13:20" ]
  = [ Ok (datetime.mk 2024 1 1 0 0 59 0); Raise ValueError;
      Ok (datetime.mk 2024 1 1 0 0 7 0); Ok (datetime.mk 2024 1 1 0 0 7 0);
      Raise ValueError; Raise ValueError;
      Ok (datetime.mk 999 1 1 0 0 7 0); Raise ValueError; Raise ValueError;
      Ok (datetime.mk 2023 11 14 22 13 20 0) ].
Proof. reflexivity. Qed.

Example strftime_sample :
  datetime.strftime_dmY_HMS (datetime.mk 2023 11 14 22 13 20 123456)
  = "14/11/2023 22:13:20".
Proof. reflexivity. Qed.

Example sha256_abc :
  hashlib.hex (hashlib.sha256 (Text.encode "abc"))
  = "ba7816bf8f01cfea414140de5dae2223b00361a396177a9cb410ff61f20015ad".
Proof. vm_compute. reflexivity. Qed.

Example sha256_empty :
  hashlib.hex (hashlib.sha256 [])
  = "e3b0c44298fc1c149afbf4c8996fb92427ae41e4649b934ca495991b7852b855".
Proof. vm_compute. reflexivity. Qed.

Example sha256_two_blocks :
  hashlib.hex (hashlib.sha256 (repeat x61 100))
  = "2816597888e4a0d3a36b82b83316ab32680eb8f00f8cd3b904d681246d285a0e".
Proof. vm_compute. reflexivity. Qed.

Example verifier_of_zero_seed :
  Text.rstrip "=" (base64.urlsafe_b64encode (hashlib.sha256 (repeat x00 32)))
  = "Zmh6rfhivXdsj8GLjp-OIAiXFIVu4jOzkCpZHQ1fKSU".
Proof. vm_compute. reflexivity. Qed.

Example interpolation_samples :
  let config :=
    configparser.mk {[ "z" := "dz" ]}
      {[ "S" := {[ "a" := "1%%"; "loop" := "%(loop)s" ]} ]} in
  ( map (fun v => match configparser.setitem config "S" "k" v with
                  | Ok c => configparser.getitem c "S" "K"
                  | Raise e => Raise e
                  end)
      [ JNull; JInt 5; JStr "a%b"; JStr "a%%b"; JStr "%(a)s"; JStr "%";
        JStr "%(x"; JStr ""; JStr "%(%%)s"; JStr "%%%(a)s"; JStr "%()s";
        JStr "%(a%b)s"; JStr "%(A)s x%%"; JStr "%(loop)s" ],
    configparser.getitem config "S" "z",
    configparser.getitem config "X" "a",
    configparser.getitem config "S" "zz" )
  = ( [ Raise TypeError; Raise TypeError; Raise ValueError; Ok "a%b";
        Ok "1%"; Raise ValueError; Raise ValueError; Ok "";
        Raise ValueError; Ok "%1%";
        Raise ValueError;
        Raise (LibraryError "InterpolationMissingOptionError");
        Ok "1% x%"; Raise (LibraryError "InterpolationDepthError") ],
      Ok "dz", Raise (KeyError (JStr "X")), Raise (KeyError (JStr "zz")) ).
Proof. vm_compute. reflexivity. Qed.

Example int_samples :
  map Builtins.int
    [ JStr " 12_3 "; JBool true; JStr "1__2"; JStr "_1"; JStr "+5"; JStr "-0";
      JStr ""; JStr " "; JStr "0x1"; JStr "1.0"; JStr "007"; JStr "1_";
      JStr "+ 5"; JStr "1699999000000"; JInt 1699999000000; JNull ]
  = [ Ok 123; Ok 1; Raise ValueError; Raise ValueError; Ok 5; Ok 0;
      Raise ValueError; Raise ValueError; Raise ValueError; Raise ValueError;
      Ok 7; Raise ValueError; Raise ValueError; Ok 1699999000000;
      Ok 1699999000000; Raise TypeError ].
Proof. reflexivity. Qed.

Example int_blanks_and_limit :
  map Builtins.int
    [ JStr (String (ascii_of_nat 28) "1"); JStr (String (ascii_of_nat 160) "1");
      JStr ("1" +:+ String (ascii_of_nat 31) "");
      JStr (string_of_list_ascii (repeat "0"%char 4299) +:+ "7");
      JStr (string_of_list_ascii (repeat "0"%char 4300) +:+ "7");
      JStr ("-" +:+ string_of_list_ascii (repeat "0"%char 4300) +:+ " ") ]
  = [ Raise ValueError; Ok 1; Raise ValueError; Ok 7; Raise ValueError; Ok 0 ].
Proof. vm_compute. reflexivity. Qed.

Example float_samples :
  ( float.nearest (Qmake 1 10),
    float.add (float.nearest (Qmake 1 10)) (float.nearest (Qmake 2 10)),
    float.div (float.of_int 1) (float.of_int 3),
    float.of_int (2 ^ 53 + 1), float.of_int (2 ^ 53 + 3),
    float.div (float.of_int 500) (float.of_int 1000000) )
  = ( Qmake 3602879701896397 36028797018963968,
      Qmake 1351079888211149 4503599627370496,
      Qmake 6004799503160661 18014398509481984,
      inject_Z 9007199254740992, inject_Z 9007199254740996,
      Qmake 1152921504606847 2305843009213693952 ).
Proof. vm_compute. reflexivity. Qed.

Example epoch_milliseconds_samples :
  let e := Scenario.surroundings (datetime.mk 2023 11 14 22 13 20 0) [] [] in
  ( timestamp e (datetime.mk 2023 11 14 22 13 20 500),
    map (epoch_milliseconds e)
      [ datetime.mk 2023 11 14 22 13 20 123456;
        datetime.mk 2023 11 14 22 13 20 1500;
        datetime.mk 2023 11 14 22 13 20 2500;
        datetime.mk 2038 1 19 3 14 8 500;
        datetime.mk 1969 12 31 23 59 59 999500 ] )
  = ( Qmake 7130316800002097 4194304,
      [ 1700000000123; 1700000000002; 1700000000002; 2147483648001; 0 ] ).
Proof. vm_compute. reflexivity. Qed.

Example urlencode_sample :
  Builtins.urlencode
    [ ("a", "http://localhost:3000");
      ("b", "x y-_.~" +:+ String (ascii_of_nat 233) "") ]
  = "a=http%3A%2F%2Flocalhost%3A3000&b=x+y-_.~%C3%A9".
Proof. reflexivity. Qed.

Example get_data_no_context :
  SpotifyScraper.get_data (Sample.example_item JNull) ∙ "playlist_url"
  = Ok (JStr "null").
Proof. reflexivity. Qed.

Example get_data_image :
  SpotifyScraper.get_data (Sample.example_item Sample.example_context) ∙ "image_album"
  = Ok (JStr "https://i.scdn.co/image/300").
Proof. reflexivity. Qed.

(** ** Properties *)

Import SpotifyScraper Process.

Ltac world_simpl :=
  cbn [config disk trace env client_id redirect_uri
       log set_env set_disk set_config
       clock epoch_seconds entropy network keyboard object_store] in *.

Lemma run_eq {A} (m : M A) (w : world) (r : result A) :
  (m w).1 = r → m w = (r, (m w).2).
Proof. destruct (m w). cbn. by intros ->. Qed.

Lemma result_bind_ok {A B} (r : result A) (k : A → result B) (b : B) :
  result_bind r k = Ok b → ∃ a, r = Ok a ∧ k a = Ok b.
Proof. destruct r as [a|e]; simpl; [eauto | discriminate]. Qed.

(** *** [get_data] *)

(** C6. For a raw play item whose album and track entries evaluate:
    when [data['context']] is [None], [get_data] returns a record whose
    ['type'] and ['playlist_url'] are both the string ["null"]; when it is
    not [None], they are the context's ['type'] and the ['spotify'] entry
    of its ['external_urls']. *)
Theorem get_data_context_sentinel (data : json) (entries : list (string * json)) :
  track_entries data = Ok entries →
  (Py.getitem data "context" = Ok JNull →
   ∃ output_data,
     get_data data = Ok output_data
     ∧ Py.getitem output_data "type" = Ok (JStr "null")
     ∧ Py.getitem output_data "playlist_url" = Ok (JStr "null"))
  ∧ (∀ context type playlist_url,
       Py.getitem data "context" = Ok context →
       context ≠ JNull →
       Py.getitem context "type" = Ok type →
       Ok context ∙ "external_urls" ∙ "spotify" = Ok playlist_url →
       ∃ output_data,
         get_data data = Ok output_data
         ∧ Py.getitem output_data "type" = Ok type
         ∧ Py.getitem output_data "playlist_url" = Ok playlist_url).
Proof.
  intros Htrack.
  assert (Hkeys : ∀ extra k, k = "type" ∨ k = "playlist_url" →
            Py.assoc k (entries ++ extra) = Py.assoc k extra).
  { intros extra k Hk. unfold track_entries in Htrack.
    repeat (apply result_bind_ok in Htrack; destruct Htrack as [? [_ Htrack]]).
    injection Htrack as <-. destruct Hk as [-> | ->]; reflexivity. }
  split.
  - intros Hctx. unfold get_data, context_entries. rewrite Htrack. simpl.
    rewrite Hctx. simpl. eexists. split; [reflexivity|].
    unfold Py.getitem. rewrite !Hkeys by auto. simpl. auto.
  - intros context type playlist_url Hctx Hnn Htype Hurl.
    unfold get_data, context_entries. rewrite Htrack. simpl.
    rewrite Hctx. simpl.
    assert (Hneg : negb (is_None context) = true) by (destruct context; simpl; congruence).
    rewrite Hneg, Htype. simpl. simpl in Hurl. rewrite Hurl. simpl.
    eexists. split; [reflexivity|].
    unfold Py.getitem. rewrite !Hkeys by auto. simpl. auto.
Qed.

Lemma get_data_context_sentinel_witness :
  (∃ output_data,
     get_data (Sample.example_item JNull) = Ok output_data
     ∧ Py.getitem output_data "type" = Ok (JStr "null")
     ∧ Py.getitem output_data "playlist_url" = Ok (JStr "null"))
  ∧ (∃ output_data,
       get_data (Sample.example_item Sample.example_context) = Ok output_data
       ∧ Py.getitem output_data "type" = Ok (JStr "playlist")
       ∧ Py.getitem output_data "playlist_url"
         = Ok (JStr "https://open.spotify.com/playlist/37i9dQZF1DX")).
Proof.
  split.
  - destruct (get_data_context_sentinel (Sample.example_item JNull) _ eq_refl)
      as [Hnull _].
    apply Hnull. reflexivity.
  - destruct (get_data_context_sentinel
                (Sample.example_item Sample.example_context) _ eq_refl)
      as [_ Hcontext].
    apply (Hcontext Sample.example_context).
    + reflexivity.
    + discriminate.
    + reflexivity.
    + reflexivity.
Defined.

(** An element read at an index and then by key comes from a list. *)
Lemma getindex_then_getitem (v element : json) (i : Z) (k : string) (x : json) :
  Py.getindex v i = Ok element →
  Py.getitem element k = Ok x →
  ∃ items p,
    v = JList items ∧ Py.position (List.length items) i = Some p
    ∧ nth_error items p = Some element.
Proof.
  intros Hidx Hkey.
  destruct v; simpl in Hidx; try discriminate.
  - destruct (Py.position _ i); [|discriminate].
    destruct (String.get _ _); [|discriminate].
    injection Hidx as <-. discriminate.
  - destruct (Py.position _ i) as [p|] eqn:Hp; [|discriminate].
    destruct (nth_error items p) eqn:Hn; [|discriminate].
    injection Hidx as <-. eauto 10.
Qed.

Lemma position_literal (len : nat) (i : nat) :
  Py.position len (Z.of_nat i) = if (i <? len)%nat then Some i else None.
Proof.
  unfold Py.position.
  destruct (Nat.ltb_spec i len).
  - replace (0 <=? Z.of_nat i) with true by (symmetry; apply Z.leb_le; lia).
    replace (Z.of_nat i <? Z.of_nat len) with true by (symmetry; apply Z.ltb_lt; lia).
    simpl. by rewrite Nat2Z.id.
  - replace (Z.of_nat i <? Z.of_nat len) with false by (symmetry; apply Z.ltb_ge; lia).
    replace (Z.of_nat i <? 0) with false by (symmetry; apply Z.ltb_ge; lia).
    by rewrite andb_false_r.
Qed.

Lemma getindex_short (items : list json) (i : nat) :
  (List.length items ≤ i)%nat → Py.getindex (JList items) (Z.of_nat i) = Raise IndexError.
Proof.
  intros H. simpl. rewrite position_literal.
  destruct (Nat.ltb_spec i (List.length items)); [lia | done].
Qed.

Lemma getitem_object_fault (members : list (string * json)) (k : string) :
  (∃ x, Py.getitem (JObj members) k = Ok x)
  ∨ Py.getitem (JObj members) k = Raise (KeyError (JStr k)).
Proof. simpl. destruct (Py.assoc k members); eauto. Qed.

(** C10. [get_data] needs two album images and one album artist. When it
    returns, the album's ['images'] is a list with an element at index 1
    and its ['artists'] a list with an element at index 0, and the record
    has the ['url'] of the one and the ['id'] and ['name'] of the other.
    On an album with fewer than two images it raises [IndexError] or, for
    an entry before it, [KeyError]; so it does on an album without
    artists whose image entry evaluates. *)
Theorem get_data_needs_two_images_one_artist (data : json) :
  (∀ output_data,
     get_data data = Ok output_data →
     ∃ album images artists image artist,
       Ok data ∙ "track" ∙ "album" = Ok album
       ∧ Py.getitem album "images" = Ok (JList images)
       ∧ Py.getitem album "artists" = Ok (JList artists)
       ∧ nth_error images 1 = Some image
       ∧ nth_error artists 0 = Some artist
       ∧ Py.getitem output_data "image_album" = Py.getitem image "url"
       ∧ Py.getitem output_data "artist_album_id" = Py.getitem artist "id"
       ∧ Py.getitem output_data "artist_album_name" = Py.getitem artist "name")
  ∧ (∀ album images,
       Ok data ∙ "track" ∙ "album" = Ok album →
       Py.getitem album "images" = Ok (JList images) →
       (List.length images < 2)%nat →
       ∃ e, get_data data = Raise e ∧ out_of_range_or_missing_key e)
  ∧ (∀ album url,
       Ok data ∙ "track" ∙ "album" = Ok album →
       Ok album ∙ "images" ∙# 1 ∙ "url" = Ok url →
       Py.getitem album "artists" = Ok (JList []) →
       ∃ e, get_data data = Raise e ∧ out_of_range_or_missing_key e).
Proof.
  split; [|split].
  - intros output_data H. unfold get_data in H.
    apply result_bind_ok in H as (track & Htrack & H).
    apply result_bind_ok in H as (context & Hcontext & H).
    injection H as <-.
    unfold track_entries in Htrack.
    apply result_bind_ok in Htrack as (album & Halbum & Htrack).
    do 5 (apply result_bind_ok in Htrack as (? & _ & Htrack)).
    apply result_bind_ok in Htrack as (image_url & Himage & Htrack).
    apply result_bind_ok in Htrack as (artist_id & Hid & Htrack).
    apply result_bind_ok in Htrack as (artist_name & Hname & Htrack).
    do 7 (apply result_bind_ok in Htrack as (? & _ & Htrack)).
    injection Htrack as <-.
    apply result_bind_ok in Himage as (image' & Himage & Hu).
    apply result_bind_ok in Himage as (v & Hv & Hget).
    destruct (getindex_then_getitem _ _ _ _ _ Hget Hu) as (images & p & -> & Hp & Hn).
    apply result_bind_ok in Hid as (artist' & Hid & Hi).
    apply result_bind_ok in Hid as (v' & Hv' & Hget').
    destruct (getindex_then_getitem _ _ _ _ _ Hget' Hi) as (artists & q & -> & Hq & Hm).
    change 1 with (Z.of_nat 1) in Hp. change 0 with (Z.of_nat 0) in Hq.
    rewrite position_literal in Hp, Hq.
    destruct (_ <? _)%nat in Hp; [|discriminate]. injection Hp as <-.
    destruct (_ <? _)%nat in Hq; [|discriminate]. injection Hq as <-.
    exists album, images, artists, image', artist'.
    simpl in Hv, Hv'. simpl.
    repeat split; try assumption.
    + by rewrite Hu.
    + by rewrite Hi.
    + simpl in Hname. rewrite Hv' in Hname. simpl in Hname.
      change 0 with (Z.of_nat 0) in Hname. rewrite position_literal in Hname.
      destruct artists; [discriminate|]. simpl in Hname, Hm.
      injection Hm as <-. by rewrite Hname.
  - intros album images Halbum Himages Hshort.
    unfold get_data, track_entries. rewrite Halbum.
    destruct album; try discriminate.
    cbn [result_bind].
    repeat match goal with
    | |- context [Py.getitem (JObj members) ?k] =>
        lazymatch k with
        | "images" => fail
        | _ => destruct (getitem_object_fault members k) as [[? ->] | ->];
               cbn [result_bind];
               [| eexists; split; [reflexivity | right; eauto]]
        end
    end.
    rewrite Himages. cbn [result_bind].
    change 1 with (Z.of_nat 1). rewrite getindex_short by lia.
    eexists; split; [reflexivity | left; reflexivity].
  - intros album url Halbum Himage Hartists.
    unfold get_data, track_entries. rewrite Halbum.
    destruct album; try discriminate.
    cbn [result_bind].
    repeat match goal with
    | |- context [Py.getitem (JObj members) ?k] =>
        lazymatch k with
        | "images" => fail
        | "artists" => fail
        | _ => destruct (getitem_object_fault members k) as [[? ->] | ->];
               cbn [result_bind];
               [| eexists; split; [reflexivity | right; eauto]]
        end
    end.
    cbn [result_bind] in Himage. rewrite Himage. cbn [result_bind].
    rewrite Hartists. cbn [result_bind].
    eexists; split; [reflexivity | left; reflexivity].
Qed.

Lemma get_data_needs_two_images_one_artist_witness :
  (∃ image artist,
     Py.getitem image "url" = Ok (JStr "https://i.scdn.co/image/300")
     ∧ Py.getitem artist "name" = Ok (JStr "Pitbull"))
  ∧ ∃ e, get_data Sample.one_image = Raise e ∧ out_of_range_or_missing_key e.
Proof.
  split.
  - destruct (get_data_needs_two_images_one_artist (Sample.example_item JNull))
      as (Hok & _).
    destruct (Hok _ eq_refl)
      as (album & images & artists & image & artist & _ & _ & _ & _ & _ & Hu & _ & Hn).
    exists image, artist. split; [symmetry; exact Hu | symmetry; exact Hn].
  - destruct (get_data_needs_two_images_one_artist Sample.one_image)
      as (_ & Hshort & _).
    eapply Hshort; [reflexivity | reflexivity | vm_compute; lia].
Defined.

(** *** [_verify_valid_token] *)

(** The rounded minutes of [delta] microseconds exceed 60 from 60 minutes and 30 seconds on, a tie at the half going to the even 60. *)
Lemma rounded_minutes_le_60 (delta : Z) :
  (60 <? py_round (datetime.total_seconds delta / inject_Z 60)%Q)
  = negb (delta <=? 3630000000).
Proof.
  unfold datetime.total_seconds, py_round, Qdiv, Qmult, Qinv, inject_Z. simpl.
  rewrite Z.mul_1_r. change (Z.pos (1000000 * 60)) with 60000000.
  pose proof (Z.div_mod delta 60000000 ltac:(lia)) as Hdm.
  pose proof (Z.mod_pos_bound delta 60000000 ltac:(lia)) as Hr.
  set (fl := delta / 60000000) in *. set (r := delta mod 60000000) in *.
  destruct (Z.leb_spec delta 3630000000) as [Hle | Hgt]; simpl.
  - apply Z.ltb_ge.
    destruct (Z.ltb_spec (2 * r) 60000000); [lia|].
    destruct (Z.ltb_spec 60000000 (2 * r)); [lia|].
    destruct (Z.even fl) eqn:He; [lia|].
    assert (fl ≠ 60) by (intros ->; discriminate). lia.
  - apply Z.ltb_lt.
    destruct (Z.ltb_spec (2 * r) 60000000); [lia|].
    destruct (Z.ltb_spec 60000000 (2 * r)); [lia|].
    destruct (Z.even fl) eqn:He; [|lia].
    assert (fl ≠ 60) by lia. lia.
Qed.

(** C1 (amended). When the stored [last_date_token] parses,
    [_verify_valid_token] returns true if and only if the time elapsed
    since then, rounded to whole minutes (a tie to the even minute), is at
    most 60: that is, if and only if it is at most 60 minutes and 30
    seconds. It changes neither the store, nor the files, nor the trace. *)
Theorem token_fresh_up_to_half_past (w : world) (text : string) (last_date_token : datetime.t) :
  configparser.getitem (config w) "SPOTIFY" "last_date_token" = Ok text →
  datetime.strptime_dmY_HMS text = Ok last_date_token →
  ∃ w',
    _verify_valid_token w
    = (Ok (datetime.sub (clock (env w) 0) last_date_token <=? 3630000000), w')
    ∧ config w' = config w ∧ disk w' = disk w ∧ trace w' = trace w.
Proof.
  intros Htext Hlast.
  unfold _verify_valid_token, bind, Process.config_get, eval, Process.now.
  rewrite Htext, Hlast. rewrite rounded_minutes_le_60.
  destruct (_ <=? _); simpl; eexists; (split; [reflexivity | auto]).
Qed.

Lemma token_fresh_up_to_half_past_witness :
  ∃ w', _verify_valid_token Run.late = (Ok true, w')
        ∧ config w' = config Run.late ∧ disk w' = disk Run.late
        ∧ trace w' = trace Run.late.
Proof.
  apply (token_fresh_up_to_half_past Run.late "14/11/2023 22:00:00"
           (datetime.mk 2023 11 14 22 0 0 0)); vm_compute; reflexivity.
Defined.

(** C1 as stated fails: sixty minutes and twenty seconds after the stored
    refresh time, which is strictly more than sixty minutes, the token
    still counts as fresh. *)
Lemma token_fresh_after_sixty_minutes :
  (_verify_valid_token Run.late).1 = Ok true
  ∧ configparser.getitem (config Run.late) "SPOTIFY" "last_date_token"
    = Ok "14/11/2023 22:00:00"
  ∧ datetime.strptime_dmY_HMS "14/11/2023 22:00:00"
    = Ok (datetime.mk 2023 11 14 22 0 0 0)
  ∧ 60 * 60 * 1000000
    < datetime.sub (clock (env Run.late) 0) (datetime.mk 2023 11 14 22 0 0 0).
Proof. vm_compute. repeat split; reflexivity. Qed.

(** *** The store accepts what [_update_token] writes *)

Lemma contains_app (c : ascii) (a b : string) :
  Text.contains c (a +:+ b) = Text.contains c a || Text.contains c b.
Proof. induction a as [|x a IH]; simpl; [done|]. by rewrite IH, orb_assoc. Qed.

Lemma drop_escapes_plain (s : string) :
  Text.contains "%" s = false → configparser.drop_escapes s = s.
Proof.
  induction s as [|a s IH]; [done|]. intros H. simpl in H.
  apply orb_false_elim in H as [Ha Hs].
  simpl. destruct s as [|b s']; [done|].
  rewrite Ha. simpl. f_equal. apply IH, Hs.
Qed.

Lemma scan_plain (s : string) :
  Text.contains "%" s = false →
  configparser.well_formed (configparser.scan false configparser.Text s) = true.
Proof.
  induction s as [|a s IH]; [done|]. intros H. simpl in H.
  apply orb_false_elim in H as [Ha Hs]. simpl. rewrite Ha. simpl. auto.
Qed.

Lemma before_set_plain (s : string) :
  Text.contains "%" s = false → configparser.before_set s = Ok s.
Proof.
  intros H. unfold configparser.before_set.
  by rewrite drop_escapes_plain, scan_plain.
Qed.

Lemma digit_plain (d : Z) : 0 <= d < 10 → Ascii.eqb (Text.digit d) "%" = false.
Proof.
  intros H. unfold Text.digit.
  assert (Hd : ∃ k : nat, (k < 10)%nat ∧ Z.to_nat d = k) by (exists (Z.to_nat d); lia).
  destruct Hd as (k & Hk & ->).
  do 10 (destruct k as [|k]; [reflexivity|]). lia.
Qed.

Lemma digits_loop_plain (fuel : nat) (n : Z) (acc : string) :
  Text.contains "%" acc = false →
  Text.contains "%" (Text.digits_loop fuel n acc) = false.
Proof.
  revert n acc. induction fuel as [|fuel IH]; intros n acc Hacc; [exact Hacc|].
  cbn [Text.digits_loop].
  assert (Hnew : Text.contains "%" (String (Text.digit (n mod 10)) acc) = false).
  { cbn [Text.contains]. rewrite digit_plain, Hacc; [reflexivity|].
    apply Z.mod_pos_bound. lia. }
  destruct (n <? 10); [exact Hnew|]. apply IH, Hnew.
Qed.

Lemma decimal_plain (n : Z) : Text.contains "%" (Text.decimal n) = false.
Proof.
  unfold Text.decimal.
  destruct (n <? 0); cbn [Text.contains]; rewrite digits_loop_plain; reflexivity.
Qed.

Lemma two_digits_plain (n : Z) : Text.contains "%" (Text.two_digits n) = false.
Proof.
  unfold Text.two_digits.
  destruct (n <? 10); cbn [Text.contains]; rewrite decimal_plain; reflexivity.
Qed.

Lemma strftime_plain (d : datetime.t) :
  Text.contains "%" (datetime.strftime_dmY_HMS d) = false.
Proof.
  unfold datetime.strftime_dmY_HMS.
  rewrite !contains_app, !two_digits_plain, !decimal_plain. reflexivity.
Qed.

Lemma storable_strftime (d : datetime.t) :
  configparser.storable (datetime.strftime_dmY_HMS d) = true.
Proof.
  unfold configparser.storable.
  rewrite drop_escapes_plain, scan_plain by apply strftime_plain.
  apply orb_true_r.
Qed.

Lemma setitem_str (config : configparser.t) (section name s : string) :
  configparser.contains config section = true →
  section ≠ configparser.default_section →
  configparser.storable s = true →
  configparser.setitem config section name (JStr s)
  = Ok (configparser.mk (configparser.defaults config)
          (<[section :=
               <[configparser.optionxform name := s]>
                 (default ∅ (configparser.sections config !! section))]>
             (configparser.sections config))).
Proof.
  intros Hin Hsec Hs. unfold configparser.setitem. rewrite Hin.
  cbn [negb].
  assert (Hset : (if String.eqb s "" then Ok s else configparser.before_set s) = Ok s).
  { unfold configparser.before_set, configparser.storable in *.
    destruct (String.eqb s ""); [reflexivity|]. cbn [orb] in Hs. by rewrite Hs. }
  rewrite Hset. cbn [result_bind].
  destruct (String.eqb_spec section configparser.default_section); [done|reflexivity].
Qed.

Lemma contains_insert (d : gmap string string) (s : gmap string (gmap string string))
    (section : string) (m : gmap string string) :
  configparser.contains (configparser.mk d (<[section := m]> s)) section = true.
Proof.
  unfold configparser.contains. cbn [configparser.sections].
  rewrite lookup_insert_eq. rewrite bool_decide_eq_true_2 by eauto.
  apply orb_true_r.
Qed.

Lemma raw_insert (d : gmap string string) (s : gmap string (gmap string string))
    (section : string) (m : gmap string string) (name : string) :
  configparser.raw (configparser.mk d (<[section := m]> s)) section name
  = m !! configparser.optionxform name.
Proof.
  unfold configparser.raw. cbn [configparser.sections].
  by rewrite lookup_insert_eq.
Qed.

(** [_update_token] with two strings that the store accepts. *)
Lemma _update_token_str (w : world) (a r : string) :
  configparser.storable a = true →
  configparser.storable r = true →
  ∃ w', _update_token (JStr a) (JStr r) w = (Ok tt, w')
        ∧ token_persisted w w' a r.
Proof.
  intros Ha Hr. unfold _update_token, bind.
  set (c0 := if negb (configparser.contains (config w) "SPOTIFY")
             then configparser.setitem_empty (config w) "SPOTIFY" else config w).
  assert (Hc0 : configparser.contains c0 "SPOTIFY" = true).
  { unfold c0. destruct (configparser.contains (config w) "SPOTIFY") eqn:E; [exact E|].
    apply contains_insert. }
  assert (Hstep : (if negb (configparser.contains (config w) "SPOTIFY")
                   then (Ok (), set_config (configparser.setitem_empty (config w) "SPOTIFY") w)
                   else (Ok (), w))
                  = (Ok tt, mk_world (env w) c0 (client_id w) (redirect_uri w) (disk w) (trace w))).
  { unfold c0. destruct (negb _); [reflexivity|]. by destruct w. }
  rewrite Hstep. clear Hstep.
  unfold config_set. cbn [config].
  rewrite (setitem_str c0 "SPOTIFY" "access_token" a Hc0 ltac:(discriminate) Ha).
  unfold set_config. cbn [config env client_id redirect_uri disk trace].
  rewrite setitem_str; [| apply contains_insert | discriminate | exact Hr].
  cbn [config env client_id redirect_uri disk trace configparser.sections configparser.defaults].
  unfold now. cbn [config env client_id redirect_uri disk trace set_env].
  rewrite setitem_str; [| apply contains_insert | discriminate | apply storable_strftime].
  cbn [config env client_id redirect_uri disk trace configparser.sections configparser.defaults eval write_file log set_disk].
  eexists. split; [reflexivity|].
  unfold token_persisted.
  cbn [config env client_id redirect_uri disk trace clock log set_disk].
  rewrite !raw_insert.
  change (configparser.optionxform "access_token") with "access_token".
  change (configparser.optionxform "refresh_token") with "refresh_token".
  change (configparser.optionxform "last_date_token") with "last_date_token".
  repeat (rewrite lookup_insert_eq; cbn [default from_option id]).
  repeat split.
  - rewrite lookup_insert_ne by discriminate.
    rewrite lookup_insert_ne by discriminate.
    apply lookup_insert_eq.
  - rewrite lookup_insert_ne by discriminate.
    apply lookup_insert_eq.
Qed.

(** *** [renew_access_token] and [_new_login] *)

(** C2. With a refresh token, a client id and a client secret in the
    store: a response of status 200 whose body has the strings [A] and [R]
    (that the store accepts as values) under ['access_token'] and
    ['refresh_token'] makes [renew_access_token] return [A], with [A], [R]
    and the time of the refresh in the store and the store written to
    ['.env']; a response of any other status makes it return [None] and
    leaves the store and the files as they were. *)
Theorem renew_access_token_outcomes (w : world)
    (refresh_token id secret : string) (resp : response) :
  configparser.getitem (config w) "SPOTIFY" "refresh_token" = Ok refresh_token →
  configparser.getitem (config w) "SPOTIFY" "client_id" = Ok id →
  configparser.getitem (config w) "SPOTIFY" "client_secret" = Ok secret →
  network (env w) 0 = Ok resp →
  (∀ A R : string,
     status_code resp = 200 →
     body resp ∙ "access_token" = Ok (JStr A) →
     body resp ∙ "refresh_token" = Ok (JStr R) →
     configparser.storable A = true →
     configparser.storable R = true →
     ∃ w', renew_access_token w = (Ok (JStr A), w')
           ∧ configparser.raw (config w') "SPOTIFY" "access_token" = Some A
           ∧ configparser.raw (config w') "SPOTIFY" "refresh_token" = Some R
           ∧ configparser.raw (config w') "SPOTIFY" "last_date_token"
             = Some (datetime.strftime_dmY_HMS (clock (env w) 0))
           ∧ disk w' !! ".env" = Some (ConfigFile (config w')))
  ∧ (status_code resp ≠ 200 →
     ∃ w', renew_access_token w = (Ok JNull, w')
           ∧ config w' = config w ∧ disk w' = disk w).
Proof.
  intros Hrt Hid Hsec Hnet.
  unfold renew_access_token, bind, config_get, eval, send.
  rewrite Hrt, Hid, Hsec, Hnet.
  split.
  - intros A R Hstatus HA HR HsA HsR.
    rewrite Hstatus. cbn [Z.eqb Pos.eqb]. rewrite HA, HR.
    match goal with
    | |- context [_update_token (JStr A) (JStr R) ?w1] =>
        destruct (_update_token_str w1 A R HsA HsR) as (w' & Hrun & Hp)
    end.
    rewrite Hrun. cbn [ret].
    destruct Hp as (H1 & H2 & H3 & H4 & _).
    exists w'. repeat split; try assumption.
    rewrite H4. apply lookup_insert_eq.
  - intros Hstatus.
    destruct (Z.eqb_spec (status_code resp) 200); [done|].
    eexists. split; [reflexivity|]. split; reflexivity.
Qed.

Lemma renew_access_token_outcomes_witness :
  (∃ w', renew_access_token Run.refreshing = (Ok (JStr "A"), w')
         ∧ configparser.raw (config w') "SPOTIFY" "access_token" = Some "A"
         ∧ configparser.raw (config w') "SPOTIFY" "refresh_token" = Some "R"
         ∧ configparser.raw (config w') "SPOTIFY" "last_date_token"
           = Some "14/11/2023 22:13:20"
         ∧ disk w' !! ".env" = Some (ConfigFile (config w')))
  ∧ (∃ w', renew_access_token Run.refusing = (Ok JNull, w')
           ∧ config w' = config Run.refusing ∧ disk w' = disk Run.refusing).
Proof.
  split.
  - apply (renew_access_token_outcomes Run.refreshing "AQCold" "f3a1c0de" "5ecr3t"
             Run.refreshed); vm_compute; reflexivity.
  - apply (renew_access_token_outcomes Run.refusing "AQCold" "f3a1c0de" "5ecr3t"
             Run.refused); vm_compute; congruence.
Defined.

(** C7. When the exchange of the authorization code is answered with a
    status other than 200, [_new_login] raises
    [Exception("Failed to get access token.")]; the store and the files
    are as before, and the exchange was requested once. *)
Theorem new_login_exchange_failure (w : world) (auth_code : string) (resp : response) :
  keyboard (env w) 0 = Ok auth_code →
  network (env w) 0 = Ok resp →
  status_code resp ≠ 200 →
  ∃ w' url sent,
    _new_login w = (Raise (Exception "Failed to get access token."), w')
    ∧ config w' = config w
    ∧ disk w' = disk w
    ∧ trace w'
      = trace w
        ++ [ Printed "Open this URL in your browser to authorize the application:";
             Printed url;
             Prompted "Paste the authorization code here: " (Ok auth_code);
             Http sent (Ok resp) ].
Proof.
  intros Hkey Hnet Hstatus.
  unfold _new_login, bind, token_bytes, eval, print, input, send.
  world_simpl.
  rewrite Hkey, Hnet.
  destruct (Z.eqb_spec (status_code resp) 200); [done|].
  cbn [negb raise].
  do 3 eexists. split; [reflexivity|].
  world_simpl. rewrite <- !app_assoc. auto.
Qed.

Lemma new_login_exchange_failure_witness :
  ∃ w' url sent,
    _new_login Run.refusing = (Raise (Exception "Failed to get access token."), w')
    ∧ config w' = config Run.refusing
    ∧ disk w' = disk Run.refusing
    ∧ trace w'
      = trace Run.refusing
        ++ [ Printed "Open this URL in your browser to authorize the application:";
             Printed url;
             Prompted "Paste the authorization code here: " (Ok "AQBcode");
             Http sent (Ok Run.refused) ].
Proof.
  apply (new_login_exchange_failure Run.refusing "AQBcode" Run.refused);
    vm_compute; congruence.
Defined.

(** A refresh answered with 200 and no ['refresh_token'] raises [KeyError]. *)
Lemma renew_access_token_without_refresh_token (w : world)
    (refresh_token id secret : string) (resp : response) (access_token : json)
    (members : list (string * json)) :
  configparser.getitem (config w) "SPOTIFY" "refresh_token" = Ok refresh_token →
  configparser.getitem (config w) "SPOTIFY" "client_id" = Ok id →
  configparser.getitem (config w) "SPOTIFY" "client_secret" = Ok secret →
  network (env w) 0 = Ok resp →
  status_code resp = 200 →
  body resp = Ok (JObj members) →
  Py.assoc "access_token" members = Some access_token →
  Py.assoc "refresh_token" members = None →
  ∃ w', renew_access_token w = (Raise (KeyError (JStr "refresh_token")), w')
        ∧ config w' = config w ∧ disk w' = disk w.
Proof.
  intros Hrt Hid Hsec Hnet Hstatus Hbody Ha Hr.
  unfold renew_access_token, bind, config_get, eval, send.
  rewrite Hrt, Hid, Hsec, Hnet, Hstatus, Hbody.
  cbn [Z.eqb Pos.eqb result_bind Py.getitem]. rewrite Ha, Hr.
  eexists. split; [reflexivity|]. split; reflexivity.
Qed.

(** C9. A token answer of status 200 without a ['refresh_token']:
    [renew_access_token] raises [KeyError('refresh_token')]; [_new_login]
    takes [None] in its place, and then raises [TypeError] when
    [_update_token] puts it in the store, after the new access token went
    into the store in memory and before ['.env'] is written. *)
Theorem missing_refresh_token_breaks_both_paths :
  (renew_access_token Run.partial_refresh).1
  = Raise (KeyError (JStr "refresh_token"))
  ∧ (_new_login Run.partial_login).1 = Raise TypeError
  ∧ configparser.raw (config (_new_login Run.partial_login).2)
      "SPOTIFY" "access_token" = Some "A"
  ∧ disk (_new_login Run.partial_login).2 !! ".env"
    = disk Run.partial_login !! ".env".
Proof. vm_compute. repeat split; reflexivity. Qed.

(** *** The PKCE pair *)

Lemma sha256_length (data : list byte) : List.length (hashlib.sha256 data) = 32%nat.
Proof.
  unfold hashlib.sha256.
  destruct (fold_left hashlib.compress _ hashlib.H0) as [[[[[[[a b] c] d] e] f] g] h].
  reflexivity.
Qed.

Lemma lor_below_64 (x y : N) : (x < 64 → y < 64 → N.lor x y < 64)%N.
Proof.
  intros Hx Hy.
  destruct (N.eq_dec (N.lor x y) 0) as [-> | Hnz]; [lia|].
  change 64%N with (2 ^ 6)%N. apply N.log2_lt_pow2; [lia|].
  rewrite N.log2_lor.
  assert (Hl : ∀ z, (z < 64 → N.log2 z < 6)%N).
  { intros z Hz. destruct (N.eq_dec z 0) as [-> | ?]; [done|].
    apply N.log2_lt_pow2; [lia | exact Hz]. }
  specialize (Hl x Hx) as H1. specialize (Hl y Hy) as H2. lia.
Qed.

Lemma byte_below_256 (b : byte) : (Byte.to_N b < 256)%N.
Proof. pose proof (Byte.to_N_bounded b). lia. Qed.

Lemma high_six (a : byte) : (N.shiftr (Byte.to_N a) 2 < 64)%N.
Proof.
  pose proof (byte_below_256 a). rewrite N.shiftr_div_pow2.
  change (2 ^ 2)%N with 4%N. apply N.Div0.div_lt_upper_bound. lia.
Qed.

Lemma low_bits_shifted (a : byte) (k s : N) :
  (k = 3 ∧ s = 4 ∨ k = 15 ∧ s = 2 →
   N.shiftl (N.land (Byte.to_N a) k) s < 64)%N.
Proof.
  intros [[-> ->] | [-> ->]]; rewrite N.shiftl_mul_pow2.
  - change 3%N with (N.ones 2). rewrite N.land_ones.
    pose proof (N.mod_upper_bound (Byte.to_N a) (2 ^ 2) ltac:(done)).
    change (2 ^ 2)%N with 4%N in *. change (2 ^ 4)%N with 16%N. lia.
  - change 15%N with (N.ones 4). rewrite N.land_ones.
    pose proof (N.mod_upper_bound (Byte.to_N a) (2 ^ 4) ltac:(done)).
    change (2 ^ 4)%N with 16%N in *. change (2 ^ 2)%N with 4%N. lia.
Qed.

Lemma high_bits (b : byte) (s : N) :
  (s = 4 ∨ s = 6 → N.shiftr (Byte.to_N b) s < 64)%N.
Proof.
  pose proof (byte_below_256 b).
  intros [-> | ->]; rewrite N.shiftr_div_pow2;
    apply N.Div0.div_lt_upper_bound; simpl; lia.
Qed.

Lemma low_six (c : byte) : (N.land (Byte.to_N c) 63 < 64)%N.
Proof.
  change 63%N with (N.ones 6). rewrite N.land_ones.
  apply N.mod_upper_bound. done.
Qed.

Lemma sextet_url_safe (n : N) :
  (n < 64)%N → url_safe_char (base64.sextet base64.urlsafe n) = true.
Proof.
  intros H. unfold base64.sextet.
  assert (Hn : (N.to_nat n < 64)%nat) by lia.
  generalize dependent (N.to_nat n). clear. intros k Hk.
  do 64 (destruct k as [|k]; [reflexivity|]). lia.
Qed.

Lemma list_ind3 {A} (P : list A → Prop) :
  P [] → (∀ a, P [a]) → (∀ a b, P [a; b]) →
  (∀ a b c l, P l → P (a :: b :: c :: l)) →
  ∀ l, P l.
Proof.
  intros H0 H1 H2 H3.
  assert (H : ∀ l, P l ∧ (∀ a, P (a :: l)) ∧ (∀ a b, P (a :: b :: l))).
  { induction l as [|x l (IH0 & IH1 & IH2)]; [auto|].
    split; [apply IH1|]. split; [intros; apply IH2|]. intros a b. by apply H3. }
  intros l. apply H.
Qed.

Lemma url_safe_app (a b : string) :
  url_safe (a +:+ b) = url_safe a && url_safe b.
Proof.
  induction a as [|c a IH]; [reflexivity|].
  change (url_safe_char c && url_safe (a +:+ b)
          = url_safe_char c && url_safe a && url_safe b).
  by rewrite IH, andb_assoc.
Qed.

Lemma length_append (a b : string) :
  String.length (a +:+ b) = (String.length a + String.length b)%nat.
Proof.
  induction a as [|c a IH]; [reflexivity|].
  change (S (String.length (a +:+ b)) = S (String.length a + String.length b)).
  by rewrite IH.
Qed.

Lemma urlsafe_b64encode_shape (data : list byte) :
  ∃ chars,
    base64.urlsafe_b64encode data = chars +:+ padding (List.length data)
    ∧ url_safe chars = true
    ∧ String.length chars = ((4 * List.length data + 2) / 3)%nat.
Proof.
  unfold base64.urlsafe_b64encode.
  induction data as [| a | a b | a b c l (chars & Heq & Hsafe & Hlen)] using list_ind3.
  - exists "". done.
  - eexists (String _ (String _ "")). split; [reflexivity|]. split; [|reflexivity].
    cbn [url_safe]. rewrite !sextet_url_safe; [done| |].
    + apply (low_bits_shifted a 3 4). auto.
    + apply high_six.
  - eexists (String _ (String _ (String _ ""))). split; [reflexivity|]. split; [|reflexivity].
    cbn [url_safe]. rewrite !sextet_url_safe; [done| | |].
    + apply (low_bits_shifted b 15 2). auto.
    + apply lor_below_64; [apply (low_bits_shifted a 3 4); auto | apply high_bits; auto].
    + apply high_six.
  - eexists (String _ (String _ (String _ (String _ chars)))).
    cbn [base64.encode]. rewrite Heq.
    split; [|split].
    + cbn [String.append]. do 4 f_equal.
      unfold padding. cbn [List.length].
      replace (S (S (S (List.length l))) mod 3)%nat with (List.length l mod 3)%nat; [done|].
      change (S (S (S (List.length l)))) with (3 + List.length l)%nat.
      rewrite <- Nat.Div0.add_mod_idemp_l. done.
    + cbn [url_safe]. rewrite Hsafe. rewrite !sextet_url_safe; [done| | | |].
      * apply low_six.
      * apply lor_below_64; [apply (low_bits_shifted b 15 2); auto | apply high_bits; auto].
      * apply lor_below_64; [apply (low_bits_shifted a 3 4); auto | apply high_bits; auto].
      * apply high_six.
    + cbn [String.length List.length]. rewrite Hlen.
      replace (4 * S (S (S (List.length l))) + 2)%nat
        with ((4 * List.length l + 2) + 4 * 3)%nat by lia.
      rewrite Nat.div_add by done. lia.
Qed.

Lemma url_safe_char_not_pad (c : ascii) :
  url_safe_char c = true → Ascii.eqb c "=" = false.
Proof.
  intros H. destruct (Ascii.eqb_spec c "=") as [-> | ?]; [|done].
  vm_compute in H. discriminate.
Qed.

Lemma rstrip_cons (c a : ascii) (rest : string) :
  Text.rstrip c (String a rest)
  = match Text.rstrip c rest with
    | EmptyString => if Ascii.eqb a c then EmptyString else String a EmptyString
    | rest' => String a rest'
    end.
Proof. reflexivity. Qed.

Lemma rstrip_padding (chars : string) (n : nat) :
  url_safe chars = true → Text.rstrip "=" (chars +:+ padding n) = chars.
Proof.
  intros Hsafe.
  assert (Hpad : Text.rstrip "=" (padding n) = "").
  { unfold padding. destruct (n mod 3)%nat as [|[|k]]; reflexivity. }
  induction chars as [|c chars IH]; [exact Hpad|].
  cbn [url_safe] in Hsafe. apply andb_prop in Hsafe as [Hc Hs].
  change (String c chars +:+ padding n) with (String c (chars +:+ padding n)).
  rewrite rstrip_cons, (IH Hs).
  rewrite (url_safe_char_not_pad c Hc). by destruct chars.
Qed.

Lemma code_verifier_shape (seed : list byte) :
  String.length (code_verifier_of seed) = 43%nat
  ∧ url_safe (code_verifier_of seed) = true.
Proof.
  unfold code_verifier_of.
  destruct (urlsafe_b64encode_shape (hashlib.sha256 seed)) as (chars & -> & Hsafe & Hlen).
  rewrite rstrip_padding by exact Hsafe.
  rewrite sha256_length in Hlen. split; [exact Hlen | exact Hsafe].
Qed.

Lemma code_challenge_shape (code_verifier : string) :
  String.length (code_challenge_of code_verifier) = 43%nat
  ∧ url_safe (code_challenge_of code_verifier) = true.
Proof.
  unfold code_challenge_of.
  destruct (urlsafe_b64encode_shape (hashlib.sha256 (Text.encode code_verifier)))
    as (chars & -> & Hsafe & Hlen).
  rewrite rstrip_padding by exact Hsafe.
  rewrite sha256_length in Hlen. split; [exact Hlen | exact Hsafe].
Qed.

Lemma url_safe_char_unreserved (c : ascii) :
  url_safe_char c = true →
  (N_of_ascii c <? 128)%N = true
  ∧ Builtins.unreserved (byte_of_ascii c) = true
  ∧ ascii_of_byte (byte_of_ascii c) = c.
Proof.
  intros H. rewrite ascii_of_byte_of_ascii.
  destruct c as [[] [] [] [] [] [] [] []]; vm_compute in H; try discriminate H;
    vm_compute; auto.
Qed.

Lemma quote_plus_url_safe (s : string) :
  url_safe s = true → Builtins.quote_plus s = s.
Proof.
  unfold Builtins.quote_plus.
  induction s as [|c s IH]; [reflexivity|]. intros H.
  cbn [url_safe] in H. apply andb_prop in H as [Hc Hs].
  destruct (url_safe_char_unreserved c Hc) as (Hlow & Hun & Hback).
  cbn [Text.encode]. rewrite Hlow. cbn [fold_right]. rewrite Hun, Hback.
  f_equal. apply IH, Hs.
Qed.

(** *** What a method may do *)

Section Within.
Context (P : event → Prop).

Lemma only_refl (w : world) : only P w w.
Proof. exists []. by rewrite app_nil_r. Qed.

Lemma only_trans (w1 w2 w3 : world) : only P w1 w2 → only P w2 w3 → only P w1 w3.
Proof.
  intros (n1 & H1 & F1 & D1) (n2 & H2 & F2 & D2). exists (n1 ++ n2).
  split; [by rewrite H2, H1, app_assoc|]. split; [by apply Forall_app|].
  intros file Hfile. by rewrite D2, D1.
Qed.

Lemma only_log (ev : event) (w : world) : P ev → only P w (log ev w).
Proof. intros H. exists [ev]. split; [done|]. split; [by constructor|done]. Qed.

Lemma only_set_env (e : environment) (w : world) : only P w (set_env e w).
Proof. exists []. cbn. by rewrite app_nil_r. Qed.

Lemma only_set_config (c : configparser.t) (w : world) : only P w (set_config c w).
Proof. exists []. cbn. by rewrite app_nil_r. Qed.

Lemma within_ret {A} (a : A) : within P (ret a).
Proof. intros w. apply only_refl. Qed.

Lemma within_raise {A} (e : exception) : within P (raise (A := A) e).
Proof. intros w. apply only_refl. Qed.

Lemma within_eval {A} (f : world → result A) : within P (eval f).
Proof. intros w. apply only_refl. Qed.

Lemma within_bind {A B} (m : M A) (k : A → M B) :
  within P m → (∀ a, within P (k a)) → within P (bind m k).
Proof.
  intros Hm Hk w. unfold bind. specialize (Hm w).
  destruct (m w) as [[a | e] w1]; [|exact Hm].
  eapply only_trans; [exact Hm | apply Hk].
Qed.

Lemma within_now : within P now.
Proof. intros w. apply only_set_env. Qed.

Lemma within_token_bytes (n : nat) : within P (token_bytes n).
Proof. intros w. apply only_set_env. Qed.

Lemma within_config_get (section name : string) : within P (config_get section name).
Proof. apply within_eval. Qed.

Lemma within_config_set (section name : string) (v : json) :
  within P (config_set section name v).
Proof.
  intros w. unfold config_set.
  destruct (configparser.setitem _ _ _ _); [apply only_set_config | apply only_refl].
Qed.

Lemma within_print (line : string) : P (Printed line) → within P (print line).
Proof. intros H w. by apply only_log. Qed.

Lemma within_sleep (s : Z) : P (Slept s) → within P (sleep s).
Proof. intros H w. by apply only_log. Qed.

Lemma within_input (prompt : string) :
  (∀ typed, P (Prompted prompt typed)) → within P (input prompt).
Proof.
  intros H w. unfold input. cbn [snd].
  eapply only_trans; [apply only_set_env | apply only_log, H].
Qed.

Lemma within_send (req : request) :
  (∀ outcome, P (Http req outcome)) → within P (send req).
Proof.
  intros H w. unfold send. cbn [snd].
  eapply only_trans; [apply only_set_env | apply only_log, H].
Qed.

Lemma within_put_object (client : s3_client) (object : s3_object) :
  (∀ outcome, P (Put client object outcome)) → within P (put_object client object).
Proof.
  intros H w. unfold put_object. cbn [snd].
  eapply only_trans; [apply only_set_env | apply only_log, H].
Qed.

Lemma within_write_file (file : string) (content : file_content) :
  P (Wrote file content) → within P (write_file file content).
Proof.
  intros H w. exists [Wrote file content]. cbn.
  split; [done|]. split; [by constructor|].
  intros file' Hfile. apply lookup_insert_ne. intros ->. by apply (Hfile content).
Qed.

End Within.

Create HintDb within discriminated.

Ltac within_step :=
  first
    [ solve [auto 1 with within nocore]
    | apply within_bind; [|intros ?]
    | apply within_ret | apply within_raise | apply within_eval
    | apply within_now | apply within_token_bytes
    | apply within_config_get | apply within_config_set
    | apply within_print | apply within_input | apply within_send
    | apply within_write_file | apply within_put_object | apply within_sleep
    | match goal with |- within _ (if ?b then _ else _) => destruct b end
    | match goal with |- within _ (match ?x with _ => _ end) => destruct x end ].

Lemma within_update_token (a r : json) : within token_event (_update_token a r).
Proof.
  unfold _update_token.
  apply within_bind; [|intros ?].
  { intros w. cbn [snd]. destruct (negb _); cbn [snd];
      [apply only_set_config | apply only_refl]. }
  repeat within_step; done.
Qed.

#[local] Hint Resolve within_update_token : within.

Lemma within_new_login : within token_event _new_login.
Proof.
  unfold _new_login. repeat within_step; done.
Qed.

Lemma within_renew_access_token : within token_event renew_access_token.
Proof.
  unfold renew_access_token. repeat within_step; done.
Qed.

Lemma within_get_access_token : within token_event get_access_token.
Proof.
  unfold get_access_token.
  apply within_bind; [apply within_renew_access_token|intros ?].
  destruct (negb _); [apply within_new_login | apply within_ret].
Qed.

Lemma within_verify_valid_token : within token_event _verify_valid_token.
Proof. unfold _verify_valid_token. repeat within_step. Qed.

Lemma within_token_for_request : within token_event token_for_request.
Proof.
  unfold token_for_request.
  apply within_bind; [apply within_verify_valid_token|intros fresh].
  destruct fresh; [repeat within_step | apply within_get_access_token].
Qed.

Lemma token_events_reach_no_sink (w w1 : world) :
  only token_event w w1 →
  sinks w1 = sinks w ∧ disk w1 !! "resultado.json" = disk w !! "resultado.json".
Proof.
  intros (new & Htrace & Hall & Hdisk). unfold sinks. split.
  - rewrite Htrace, List.filter_app.
    replace (List.filter sink_event new) with (@nil event); [by rewrite app_nil_r|].
    symmetry. clear Htrace Hdisk. induction Hall as [|ev new Hev _ IH]; [done|].
    cbn [List.filter]. rewrite IH.
    destruct ev; cbn in Hev |- *; try done. subst. reflexivity.
  - apply Hdisk. intros content H. cbn in H. discriminate.
Qed.

Lemma token_for_request_only (w w1 : world) (r : result json) :
  token_for_request w = (r, w1) → only token_event w w1.
Proof. intros H. pose proof (within_token_for_request w) as Hw. by rewrite H in Hw. Qed.

(** C3. In [_new_login], with a code typed at the prompt: the
    [code_verifier] is the unpadded URL-safe base64 of the SHA-256 of 32
    random bytes, a string of 43 URL-safe characters; the [code_challenge]
    is the unpadded URL-safe base64 of the SHA-256 of the verifier; the
    URL shown to the user carries that challenge, unchanged by the
    URL-encoding, and the exchange that follows carries that verifier. *)
Theorem login_sends_pkce_pair (w : world) (auth_code : string) :
  keyboard (env w) 0 = Ok auth_code →
  let seed := map (entropy (env w)) (seq 0 32) in
  let code_verifier := code_verifier_of seed in
  let code_challenge := code_challenge_of code_verifier in
  List.length seed = 32%nat
  ∧ code_verifier
    = Text.rstrip "=" (base64.urlsafe_b64encode (hashlib.sha256 seed))
  ∧ String.length code_verifier = 43%nat
  ∧ url_safe code_verifier = true
  ∧ code_challenge
    = Text.rstrip "="
        (base64.urlsafe_b64encode (hashlib.sha256 (Text.encode code_verifier)))
  ∧ Builtins.quote_plus code_challenge = code_challenge
  ∧ ∃ later,
      trace (_new_login w).2
      = trace w
        ++ [ Printed "Open this URL in your browser to authorize the application:";
             Printed
               (auth_url +:+ "?"
                +:+ Builtins.urlencode
                      [ ("response_type", "code");
                        ("client_id", client_id w);
                        ("redirect_uri", redirect_uri w);
                        ("scope", "user-read-recently-played");
                        ("code_challenge", code_challenge);
                        ("code_challenge_method", "S256") ]);
             Prompted "Paste the authorization code here: " (Ok auth_code);
             Http (mk_request "POST" token_url []
                     [ ("grant_type", JStr "authorization_code");
                       ("code", JStr auth_code);
                       ("redirect_uri", JStr (redirect_uri w));
                       ("client_id", JStr (client_id w));
                       ("code_verifier", JStr code_verifier) ])
                  (network (env w) 0) ]
        ++ later.
Proof.
  intros Hkey seed code_verifier code_challenge.
  destruct (code_verifier_shape seed) as [Hlen Hsafe].
  destruct (code_challenge_shape code_verifier) as [_ Hsafe'].
  split; [unfold seed; by rewrite length_map, length_seq|].
  split; [reflexivity|].
  split; [exact Hlen|]. split; [exact Hsafe|].
  split; [reflexivity|].
  split; [by apply quote_plus_url_safe|].
  unfold _new_login, bind, token_bytes, eval, print, input, send.
  world_simpl. rewrite Hkey. subst seed code_verifier code_challenge.
  destruct (network (env w) 0) as [resp | e].
  - destruct (negb (status_code resp =? 200)); cbn [raise snd].
    { exists []. world_simpl. (rewrite <- ?app_assoc; cbn [app]; reflexivity). }
    destruct (body resp ∙ "access_token") as [access_token | e]; cbn [snd].
    2: { exists []. world_simpl. (rewrite <- ?app_assoc; cbn [app]; reflexivity). }
    destruct (let? b := body resp in Py.get b "refresh_token" JNull)
      as [refresh_token | e]; cbn [snd].
    2: { exists []. world_simpl. (rewrite <- ?app_assoc; cbn [app]; reflexivity). }
    match goal with
    | |- context [_update_token ?a ?r ?w1] =>
        destruct (within_update_token a r w1) as (later & Ht & _);
        destruct (_update_token a r w1) as [[[] | e] w']
    end; cbn [snd ret] in *; exists later; rewrite Ht; world_simpl;
      (rewrite <- ?app_assoc; cbn [app]; reflexivity).
  - exists []. cbn [snd]. world_simpl. (rewrite <- ?app_assoc; cbn [app]; reflexivity).
Qed.

Lemma login_sends_pkce_pair_witness :
  String.length (code_verifier_of (repeat x00 32)) = 43%nat
  ∧ code_verifier_of (repeat x00 32)
    = "Zmh6rfhivXdsj8GLjp-OIAiXFIVu4jOzkCpZHQ1fKSU"
  ∧ code_challenge_of (code_verifier_of (repeat x00 32))
    = "kpiWc1f8tLjTkLZUweJr8IctL_9HIKLNPfT0g9gMrl0".
Proof.
  pose proof (login_sends_pkce_pair Run.refusing "AQBcode" eq_refl)
    as (_ & _ & Hlen & _).
  split; [exact Hlen|]. vm_compute. split; reflexivity.
Defined.

(** *** [get_tracks_history] *)

(** C4. When the token for the request is resolved and the response has an
    empty ['items'] list, [get_tracks_history] returns 0; nothing was
    written to ['resultado.json'] and nothing was sent to the object
    store, and the history request is the only event after the token's. *)
Theorem empty_page_is_terminal (unix_date : Z) (w w1 : world)
    (access_token : json) (resp : response) :
  token_for_request w = (Ok access_token, w1) →
  network (env w1) 0 = Ok resp →
  body resp ∙ "items" = Ok (JList []) →
  ∃ w2,
    get_tracks_history unix_date w = (Ok 0, w2)
    ∧ sinks w2 = sinks w
    ∧ disk w2 !! "resultado.json" = disk w !! "resultado.json"
    ∧ trace w2
      = trace w1
        ++ [ Http (mk_request "GET" history_url
                     [("Authorization", Formatted "Bearer " access_token)]
                     [("limit", JInt 50); ("before", JInt unix_date)])
                  (Ok resp) ].
Proof.
  intros Htoken Hnet Hitems.
  destruct (token_events_reach_no_sink w w1 (token_for_request_only _ _ _ Htoken))
    as [Hsinks Hdisk].
  unfold get_tracks_history, bind. rewrite Htoken.
  unfold send. rewrite Hnet. unfold eval. rewrite Hitems.
  cbn [result_bind Builtins.len List.length Z.of_nat Z.eqb ret].
  eexists. split; [reflexivity|]. unfold sinks in *. world_simpl.
  rewrite List.filter_app, Hsinks, Hdisk. cbn [List.filter sink_event].
  by rewrite app_nil_r.
Qed.

Lemma empty_page_is_terminal_witness :
  let w := Run.fresh [Scenario.last_page] in
  ∃ w2,
    get_tracks_history 1700000000000 w = (Ok 0, w2)
    ∧ sinks w2 = sinks w
    ∧ disk w2 !! "resultado.json" = disk w !! "resultado.json".
Proof.
  intros w.
  destruct (empty_page_is_terminal 1700000000000 w (token_for_request w).2
              (JStr "BQDold") (Run.answered Scenario.last_page))
    as (w2 & Hrun & Hsinks & Hdisk & _).
  - apply run_eq. vm_compute. reflexivity.
  - vm_compute. reflexivity.
  - vm_compute. reflexivity.
  - exists w2. split; [exact Hrun|]. split; [exact Hsinks | exact Hdisk].
Defined.

(** C5. When the token for the request is resolved, the response has a
    non-empty ['items'] list and a ['cursors']['before'] that [int]
    converts to [next], the four AWS options are in the store and the
    upload succeeds: [get_tracks_history] returns [next], and the items
    list, serialised with indent 4, is what ['resultado.json'] holds and
    what was uploaded, once each. *)
Theorem page_goes_to_both_sinks (unix_date : Z) (w w1 : world)
    (access_token : json) (resp : response) (item : json) (items : list json)
    (before : json) (next : Z) (key_id secret region bucket_name : string) :
  token_for_request w = (Ok access_token, w1) →
  network (env w1) 0 = Ok resp →
  body resp ∙ "items" = Ok (JList (item :: items)) →
  body resp ∙ "cursors" ∙ "before" = Ok before →
  Builtins.int before = Ok next →
  configparser.getitem (config w1) "AWS" "AWS_ACCESS_KEY_ID" = Ok key_id →
  configparser.getitem (config w1) "AWS" "AWS_SECRET_ACCESS_KEY" = Ok secret →
  configparser.getitem (config w1) "AWS" "AWS_REGION" = Ok region →
  configparser.getitem (config w1) "AWS" "S3_BUCKET_NAME" = Ok bucket_name →
  object_store (env w1) 0 = Ok tt →
  let page := JsonText (JList (item :: items)) 4 in
  let object :=
    mk_object bucket_name
      ("tracks_history_" +:+ datetime.strftime_Ymd_HMS (clock (env w1) 0) +:+ ".json")
      page "application/json" in
  ∃ w2,
    get_tracks_history unix_date w = (Ok next, w2)
    ∧ disk w2 !! "resultado.json" = Some page
    ∧ sinks w2
      = sinks w ++ [ Wrote "resultado.json" page;
                     Put (mk_client key_id secret region) object (Ok tt) ].
Proof.
  intros Htoken Hnet Hitems Hbefore Hint Hkey Hsecret Hregion Hbucket Hstore page object.
  destruct (token_events_reach_no_sink w w1 (token_for_request_only _ _ _ Htoken))
    as [Hsinks _].
  unfold get_tracks_history, bind. rewrite Htoken.
  unfold send. rewrite Hnet. unfold eval. rewrite Hitems, Hbefore.
  cbn [result_bind Builtins.len List.length]. rewrite Hint.
  rewrite Nat2Z.inj_succ.
  destruct (Z.eqb_spec (Z.succ (Z.of_nat (List.length items))) 0) as [E|_]; [lia|].
  unfold write_file, save_to_s3, bind, config_get, eval, now, put_object, print.
  world_simpl. rewrite Hkey, Hsecret, Hregion, Hbucket, Hstore.
  cbn [ret]. eexists. split; [reflexivity|]. world_simpl.
  split; [apply lookup_insert_eq|].
  unfold sinks in *. world_simpl.
  rewrite !List.filter_app, Hsinks. cbn [List.filter sink_event String.eqb Ascii.eqb Bool.eqb].
  rewrite <- !app_assoc. reflexivity.
Qed.

Lemma page_goes_to_both_sinks_witness :
  let w := Run.fresh [Scenario.page Run.two_items (JStr "1699999000000")] in
  let page := JsonText (JList Run.two_items) 4 in
  ∃ w2 client object,
    get_tracks_history 1700000000000 w = (Ok 1699999000000, w2)
    ∧ Body object = page
    ∧ Key object = "tracks_history_20231114_221321.json"
    ∧ disk w2 !! "resultado.json" = Some page
    ∧ sinks w2 = sinks w ++ [ Wrote "resultado.json" page; Put client object (Ok tt) ].
Proof.
  intros w page.
  destruct (page_goes_to_both_sinks 1700000000000 w (token_for_request w).2
              (JStr "BQDold")
              (Run.answered (Scenario.page Run.two_items (JStr "1699999000000")))
              (Sample.example_item JNull) [Sample.example_item Sample.example_context]
              (JStr "1699999000000") 1699999000000
              "AKIAEXAMPLE" "wJalrXUt" "sa-east-1" "wrapped-raw")
    as (w2 & Hrun & Hdisk & Hsinks).
  - apply run_eq. vm_compute. reflexivity.
  - vm_compute. reflexivity.
  - vm_compute. reflexivity.
  - vm_compute. reflexivity.
  - vm_compute. reflexivity.
  - vm_compute. reflexivity.
  - vm_compute. reflexivity.
  - vm_compute. reflexivity.
  - vm_compute. reflexivity.
  - vm_compute. reflexivity.
  - exists w2. do 2 eexists. split; [exact Hrun|].
    split; [|split; [|split; [exact Hdisk | exact Hsinks]]].
    + reflexivity.
    + vm_compute. reflexivity.
Defined.

(** *** [main] *)

Lemma steps_app (a b : list event) : steps (a ++ b) = steps a ++ steps b.
Proof. apply omap_app. Qed.

Lemma steps_quiet (new : list event) : Forall quiet new → steps new = [].
Proof.
  induction 1 as [|ev new Hev _ IH]; [done|].
  unfold steps in *. cbn [omap list_omap]. by rewrite Hev.
Qed.

Lemma token_event_quiet (ev : event) : token_event ev → quiet ev.
Proof.
  unfold token_event, quiet, step_of. destruct ev; try done.
  intros [H _]. by rewrite H.
Qed.

Lemma only_steps (P : event → Prop) (w w' : world) :
  (∀ ev, P ev → quiet ev) → only P w w' →
  ∃ new, trace w' = trace w ++ new ∧ steps new = [].
Proof.
  intros HP (new & Htrace & Hall & _). exists new. split; [done|].
  apply steps_quiet. eapply Forall_impl; eauto.
Qed.

Lemma within_save_to_s3 (data : json) : within quiet (save_to_s3 data).
Proof. unfold save_to_s3. repeat within_step; done. Qed.

(** One call of [get_tracks_history]: at most one history request, with the cursor given; a call that returns has made it, and returns what the page gives. *)
Lemma get_tracks_history_steps (unix_date : Z) (w : world) :
  ∃ new,
    trace (get_tracks_history unix_date w).2 = trace w ++ new
    ∧ match (get_tracks_history unix_date w).1 with
      | Ok next_page =>
          ∃ resp, steps new = [Fetched unix_date (Ok resp)]
                  ∧ next_page_of resp = Ok next_page
      | Raise _ =>
          steps new = [] ∨ ∃ outcome, steps new = [Fetched unix_date outcome]
      end.
Proof.
  unfold get_tracks_history, bind.
  pose proof (within_token_for_request w) as Htoken.
  destruct (token_for_request w) as [[access_token | e] w1]; cbn [snd] in Htoken;
    apply (only_steps _ _ _ token_event_quiet) in Htoken as (new1 & Ht1 & Hs1).
  2: { exists new1. cbn [fst snd]. auto. }
  unfold send.
  set (req := mk_request "GET" history_url _ _).
  set (w2 := log (Http req (network (env w1) 0)) _).
  assert (Ht2 : trace w2 = trace w ++ new1 ++ [Http req (network (env w1) 0)]).
  { unfold w2. world_simpl. by rewrite Ht1, <- app_assoc. }
  assert (Hs2 : steps (new1 ++ [Http req (network (env w1) 0)])
                = [Fetched unix_date (network (env w1) 0)]).
  { by rewrite steps_app, Hs1. }
  clearbody w2.
  destruct (network (env w1) 0) as [resp | e].
  2: { eexists. cbn [fst snd]. split; [exact Ht2|]. right. eauto. }
  unfold eval.
  destruct (let? items := body resp ∙ "items" in Builtins.len items) as [count | e]
    eqn:Hcount; cbn [result_bind].
  2: { eexists. cbn [fst snd]. split; [exact Ht2|]. right. eauto. }
  destruct (count =? 0) eqn:Hzero.
  { eexists. cbn [fst snd ret]. split; [exact Ht2|]. exists resp. split; [exact Hs2|].
    unfold next_page_of. rewrite Hcount. cbn [result_bind]. by rewrite Hzero. }
  destruct (let? b := body resp ∙ "cursors" ∙ "before" in Builtins.int b)
    as [before | e] eqn:Hbefore; cbn [result_bind].
  2: { eexists. cbn [fst snd]. split; [exact Ht2|]. right. eauto. }
  assert (Hnext : next_page_of resp = Ok before).
  { unfold next_page_of. rewrite Hcount. cbn [result_bind]. by rewrite Hzero. }
  destruct (body resp ∙ "items") as [data | e] eqn:Hdata; [|discriminate].
  unfold write_file.
  set (w3 := log _ _).
  assert (Ht3 : trace w3 = trace w2 ++ [Wrote "resultado.json" (JsonText data 4)])
    by reflexivity.
  clearbody w3.
  pose proof (within_save_to_s3 data w3) as Hs3.
  apply (only_steps quiet _ _ (fun _ H => H)) in Hs3 as (new3 & Ht4 & Hq3).
  destruct (save_to_s3 data w3) as [[[] | e] w4]; cbn [fst snd ret] in *.
  - exists (new1 ++ [Http req (Ok resp)] ++ [Wrote "resultado.json" (JsonText data 4)] ++ new3).
    split; [rewrite Ht4, Ht3, Ht2; by rewrite <- !app_assoc|].
    exists resp. split; [|done].
    rewrite !app_assoc, steps_app, Hq3, app_nil_r, steps_app, Hs2. done.
  - exists (new1 ++ [Http req (Ok resp)] ++ [Wrote "resultado.json" (JsonText data 4)] ++ new3).
    split; [rewrite Ht4, Ht3, Ht2; by rewrite <- !app_assoc|].
    right. exists (Ok resp).
    rewrite !app_assoc, steps_app, Hq3, app_nil_r, steps_app, Hs2. done.
Qed.

Lemma while_next_page_steps (fuel : nat) (next_page : Z) (w : world) :
  ∃ new,
    trace (while_next_page fuel next_page w).2 = trace w ++ new
    ∧ follows next_page (steps new).
Proof.
  revert next_page w. induction fuel as [|fuel IH]; intros next_page w.
  - exists []. cbn [while_next_page]. destruct (next_page =? 0); cbn; by rewrite app_nil_r.
  - cbn [while_next_page].
    destruct (Z.eqb_spec next_page 0) as [-> | Hnz].
    { exists []. cbn. by rewrite app_nil_r. }
    unfold bind.
    destruct (get_tracks_history_steps next_page w) as (new1 & Ht1 & Hr).
    destruct (get_tracks_history next_page w) as [[next | e] w1]; cbn [fst snd] in *.
    + destruct Hr as (resp & Hs1 & Hnext).
      unfold sleep.
      destruct (IH next (log (Slept 2) w1)) as (new2 & Ht2 & Hf).
      exists (new1 ++ [Slept 2] ++ new2). split.
      * rewrite Ht2. world_simpl. rewrite Ht1. by rewrite <- !app_assoc.
      * rewrite steps_app, Hs1. cbn [app steps omap list_omap step_of].
        cbn [follows]. repeat split; try done. eauto.
    + exists new1. split; [done|].
      destruct Hr as [-> | (outcome & ->)]; cbn; auto.
Qed.

Lemma init_trace (w : world) : trace (__init__ w).2 = trace w.
Proof.
  unfold __init__, bind, config_get, eval.
  destruct (disk w !! ".env") as [[c | d i]|]; cbn [snd]; world_simpl;
    try reflexivity;
    match goal with
    | |- context [configparser.getitem ?c ?s ?n] =>
        destruct (configparser.getitem c s n)
    end; reflexivity.
Qed.

(** C8. Whatever the surroundings answer and however long [main] runs:
    its first history request carries [epoch_milliseconds] of the first
    clock reading, the float [timestamp()] times 1000 as binary64 gives
    it, rounded to an integer; every request is made with a cursor that is
    not zero; a request is followed by a pause of 2 seconds exactly when
    its call returned, and a request after that pause carries the cursor
    that the previous page returned. *)
Theorem driver_loop_follows_cursors (fuel : nat) (w : world) :
  ∃ new,
    trace (main fuel w).2 = trace w ++ new
    ∧ follows (epoch_milliseconds (env w) (clock (env w) 0)) (steps new).
Proof.
  unfold main, bind, now, eval.
  set (w1 := set_env _ w).
  pose proof (init_trace w1) as Hinit.
  destruct (__init__ w1) as [[[] | e] w2]; cbn [snd] in Hinit.
  - destruct (while_next_page_steps fuel
                (epoch_milliseconds (env w1) (clock (env w) 0)) w2) as (new & Ht & Hf).
    exists new. split; [by rewrite Ht, Hinit|exact Hf].
  - exists []. cbn. by rewrite app_nil_r, Hinit.
Qed.

(** ** Further properties of the code *)

(** *** The token for a request *)

(** X1. When [last_date_token] cannot be read from the store or does not
    parse, [get_tracks_history] raises that fault and does nothing else:
    no login, no request, no event; the driver loop stops with it. *)
Lemma unreadable_timestamp_stops_the_fetch (unix_date : Z) (w : world) (e : exception) :
  (let? text := configparser.getitem (config w) "SPOTIFY" "last_date_token" in
   datetime.strptime_dmY_HMS text) = Raise e →
  get_tracks_history unix_date w = (Raise e, w)
  ∧ ∀ fuel, unix_date ≠ 0 → while_next_page (S fuel) unix_date w = (Raise e, w).
Proof.
  intros H.
  assert (Hget : get_tracks_history unix_date w = (Raise e, w)).
  { unfold get_tracks_history, token_for_request, _verify_valid_token, bind,
      config_get, eval.
    destruct (configparser.getitem (config w) "SPOTIFY" "last_date_token")
      as [text | e']; cbn [result_bind] in H.
    - by rewrite H.
    - by injection H as ->. }
  split; [exact Hget|]. intros fuel Hnz. cbn [while_next_page].
  destruct (Z.eqb_spec unix_date 0); [done|]. unfold bind. by rewrite Hget.
Qed.

Lemma unreadable_timestamp_stops_the_fetch_witness :
  get_tracks_history 1700000000000
    (Scenario.start (configparser.of_sections
                       [("SPOTIFY", [("client_id", "f3a1c0de")])])
       (Scenario.surroundings (datetime.mk 2023 11 14 22 13 20 0) [] []))
  = (Raise (KeyError (JStr "last_date_token")),
     Scenario.start (configparser.of_sections
                       [("SPOTIFY", [("client_id", "f3a1c0de")])])
       (Scenario.surroundings (datetime.mk 2023 11 14 22 13 20 0) [] [])).
Proof.
  apply (unreadable_timestamp_stops_the_fetch 1700000000000). vm_compute. reflexivity.
Defined.

(** X2. While the stored token counts as fresh, the token for the request
    is the stored [access_token], read without any event: no refresh, no
    login, no change of the store or of the files. *)
Lemma fresh_token_is_reused (w : world) (text stored : string)
    (last_date_token : datetime.t) :
  configparser.getitem (config w) "SPOTIFY" "last_date_token" = Ok text →
  datetime.strptime_dmY_HMS text = Ok last_date_token →
  datetime.sub (clock (env w) 0) last_date_token <= 3630000000 →
  configparser.getitem (config w) "SPOTIFY" "access_token" = Ok stored →
  ∃ w', token_for_request w = (Ok (JStr stored), w')
        ∧ trace w' = trace w ∧ config w' = config w ∧ disk w' = disk w
        ∧ network (env w') = network (env w).
Proof.
  intros Htext Hlast Hfresh Hstored.
  unfold token_for_request, _verify_valid_token, bind, config_get, eval, now.
  rewrite Htext, Hlast, rounded_minutes_le_60.
  replace (_ <=? _) with true by (symmetry; by apply Z.leb_le).
  cbn [negb ret]. world_simpl. rewrite Hstored.
  eexists. split; [reflexivity|]. world_simpl. auto.
Qed.

Lemma fresh_token_is_reused_witness :
  let w := Run.fresh [] in
  ∃ w', token_for_request w = (Ok (JStr "BQDold"), w')
        ∧ trace w' = trace w ∧ config w' = config w ∧ disk w' = disk w
        ∧ network (env w') = network (env w).
Proof.
  intros w.
  apply (fresh_token_is_reused w "14/11/2023 22:00:00" "BQDold"
           (datetime.mk 2023 11 14 22 0 0 0)); vm_compute; congruence.
Defined.

Lemma renew_access_token_refused (w : world)
    (refresh_token id secret : string) (resp : response) :
  configparser.getitem (config w) "SPOTIFY" "refresh_token" = Ok refresh_token →
  configparser.getitem (config w) "SPOTIFY" "client_id" = Ok id →
  configparser.getitem (config w) "SPOTIFY" "client_secret" = Ok secret →
  network (env w) 0 = Ok resp →
  status_code resp ≠ 200 →
  (renew_access_token w).1 = Ok JNull.
Proof.
  intros Hrt Hid Hsec Hnet Hstatus.
  unfold renew_access_token, bind, config_get, eval, send.
  rewrite Hrt, Hid, Hsec, Hnet.
  by destruct (Z.eqb_spec (status_code resp) 200).
Qed.

Lemma renew_access_token_granted (w : world)
    (refresh_token id secret : string) (resp : response) (A R : string) :
  configparser.getitem (config w) "SPOTIFY" "refresh_token" = Ok refresh_token →
  configparser.getitem (config w) "SPOTIFY" "client_id" = Ok id →
  configparser.getitem (config w) "SPOTIFY" "client_secret" = Ok secret →
  network (env w) 0 = Ok resp →
  status_code resp = 200 →
  body resp ∙ "access_token" = Ok (JStr A) →
  body resp ∙ "refresh_token" = Ok (JStr R) →
  configparser.storable A = true →
  configparser.storable R = true →
  (renew_access_token w).1 = Ok (JStr A).
Proof.
  intros Hrt Hid Hsec Hnet Hstatus HA HR HsA HsR.
  unfold renew_access_token, bind, config_get, eval, send.
  rewrite Hrt, Hid, Hsec, Hnet, Hstatus. cbn [Z.eqb Pos.eqb]. rewrite HA, HR.
  match goal with
  | |- context [_update_token (JStr A) (JStr R) ?w1] =>
      destruct (_update_token_str w1 A R HsA HsR) as (w' & Hrun & _)
  end.
  by rewrite Hrun.
Qed.

(** X3. [get_access_token] logs in exactly when the refresh gives nothing
    to use: after a refresh refused (status other than 200) it is
    [_new_login] run after the refresh; after a refresh granted with a
    non-empty access token it is the refresh alone; and after a refresh
    granted with an empty access token, which is stored, it still logs
    in. *)
Lemma get_access_token_falls_back (w : world)
    (refresh_token id secret : string) (resp : response) :
  configparser.getitem (config w) "SPOTIFY" "refresh_token" = Ok refresh_token →
  configparser.getitem (config w) "SPOTIFY" "client_id" = Ok id →
  configparser.getitem (config w) "SPOTIFY" "client_secret" = Ok secret →
  network (env w) 0 = Ok resp →
  (status_code resp ≠ 200 →
   get_access_token w = _new_login (renew_access_token w).2)
  ∧ (∀ A R : string,
       status_code resp = 200 →
       body resp ∙ "access_token" = Ok (JStr A) →
       body resp ∙ "refresh_token" = Ok (JStr R) →
       configparser.storable A = true →
       configparser.storable R = true →
       A ≠ "" →
       get_access_token w = renew_access_token w
       ∧ (renew_access_token w).1 = Ok (JStr A))
  ∧ (∀ R : string,
       status_code resp = 200 →
       body resp ∙ "access_token" = Ok (JStr "") →
       body resp ∙ "refresh_token" = Ok (JStr R) →
       configparser.storable R = true →
       get_access_token w = _new_login (renew_access_token w).2).
Proof.
  intros Hrt Hid Hsec Hnet. split; [|split].
  - intros Hstatus.
    pose proof (renew_access_token_refused w _ _ _ _ Hrt Hid Hsec Hnet Hstatus) as Hrun.
    unfold get_access_token, bind.
    destruct (renew_access_token w) as [r w']. cbn [fst snd] in *. by rewrite Hrun.
  - intros A R Hstatus HA HR HsA HsR HAne.
    pose proof (renew_access_token_granted w _ _ _ _ A R Hrt Hid Hsec Hnet Hstatus
                  HA HR HsA HsR) as Hrun.
    unfold get_access_token, bind.
    destruct (renew_access_token w) as [r w']. cbn [fst snd] in *. rewrite Hrun.
    cbn [Builtins.truthy]. split; [|reflexivity].
    by destruct (String.eqb_spec A "").
  - intros R Hstatus HA HR HsR.
    pose proof (renew_access_token_granted w _ _ _ _ "" R Hrt Hid Hsec Hnet Hstatus
                  HA HR eq_refl HsR) as Hrun.
    unfold get_access_token, bind.
    destruct (renew_access_token w) as [r w']. cbn [fst snd] in *. by rewrite Hrun.
Qed.

Lemma get_access_token_falls_back_witness :
  get_access_token Run.falling_back
  = _new_login (renew_access_token Run.falling_back).2
  ∧ (get_access_token Run.refreshing = renew_access_token Run.refreshing
     ∧ (renew_access_token Run.refreshing).1 = Ok (JStr "A"))
  ∧ get_access_token Run.refreshing_empty
    = _new_login (renew_access_token Run.refreshing_empty).2.
Proof.
  split; [|split].
  - apply (get_access_token_falls_back Run.falling_back "AQCold" "f3a1c0de" "5ecr3t"
             Run.refused); vm_compute; congruence.
  - destruct (get_access_token_falls_back Run.refreshing "AQCold" "f3a1c0de" "5ecr3t"
                Run.refreshed eq_refl eq_refl eq_refl eq_refl) as (_ & Hgranted & _).
    apply (Hgranted "A" "R"); vm_compute; congruence.
  - destruct (get_access_token_falls_back Run.refreshing_empty "AQCold" "f3a1c0de"
                "5ecr3t" Run.empty_token eq_refl eq_refl eq_refl eq_refl)
      as (_ & _ & Hempty).
    apply (Hempty "R"); vm_compute; congruence.
Defined.

(** X4. When the refresh token, the client id or the client secret cannot be
    read from the store, [renew_access_token] raises that fault before
    any request, and [get_access_token] raises it too: it does not fall
    back to the login. *)
Lemma renew_needs_the_credentials (w : world) (e : exception) :
  (let? refresh_token := configparser.getitem (config w) "SPOTIFY" "refresh_token" in
   let? id := configparser.getitem (config w) "SPOTIFY" "client_id" in
   configparser.getitem (config w) "SPOTIFY" "client_secret") = Raise e →
  renew_access_token w = (Raise e, w)
  ∧ get_access_token w = (Raise e, w).
Proof.
  intros H.
  assert (Hrun : renew_access_token w = (Raise e, w)).
  { unfold renew_access_token, bind, config_get, eval.
    destruct (configparser.getitem (config w) "SPOTIFY" "refresh_token") as [?|?];
      cbn [result_bind] in H; [|by injection H as ->].
    destruct (configparser.getitem (config w) "SPOTIFY" "client_id") as [?|?];
      cbn [result_bind] in H; [|by injection H as ->].
    by rewrite H. }
  split; [exact Hrun|]. unfold get_access_token, bind. by rewrite Hrun.
Qed.

Lemma renew_needs_the_credentials_witness :
  let w := Scenario.start Run.store_before_login
             (Scenario.surroundings (datetime.mk 2023 11 14 22 13 20 0)
                [Ok Run.refreshed] [Ok "AQBcode"]) in
  get_access_token w = (Raise (KeyError (JStr "refresh_token")), w).
Proof.
  intros w. apply (renew_needs_the_credentials w). reflexivity.
Defined.

(** X5. Whatever the surroundings answer, [get_access_token] writes nothing
    to ['resultado.json'], uploads nothing, and makes no history request
    and no pause. *)
Lemma token_traffic_reaches_no_sink (w : world) :
  sinks (get_access_token w).2 = sinks w
  ∧ disk (get_access_token w).2 !! "resultado.json" = disk w !! "resultado.json"
  ∧ steps (drop (List.length (trace w)) (trace (get_access_token w).2)) = [].
Proof.
  pose proof (within_get_access_token w) as Hw.
  destruct (token_events_reach_no_sink _ _ Hw) as [Hs Hd].
  split; [exact Hs|]. split; [exact Hd|].
  destruct (only_steps _ _ _ token_event_quiet Hw) as (new & Ht & Hq).
  rewrite Ht, drop_app_length. exact Hq.
Qed.

(** *** Storing a token *)

(** X6. When the exchange of the authorization code is answered with 200
    and the strings [A] and [R] (that the store accepts), [_new_login]
    returns [A], with [A], [R] and the time of the login in the store and
    the store written to ['.env']. *)
Lemma new_login_granted (w : world) (auth_code : string) (resp : response)
    (A R : string) :
  keyboard (env w) 0 = Ok auth_code →
  network (env w) 0 = Ok resp →
  status_code resp = 200 →
  body resp ∙ "access_token" = Ok (JStr A) →
  body resp ∙ "refresh_token" = Ok (JStr R) →
  configparser.storable A = true →
  configparser.storable R = true →
  ∃ w', _new_login w = (Ok (JStr A), w')
        ∧ configparser.raw (config w') "SPOTIFY" "access_token" = Some A
        ∧ configparser.raw (config w') "SPOTIFY" "refresh_token" = Some R
        ∧ configparser.raw (config w') "SPOTIFY" "last_date_token"
          = Some (datetime.strftime_dmY_HMS (clock (env w) 0))
        ∧ disk w' !! ".env" = Some (ConfigFile (config w')).
Proof.
  intros Hkey Hnet Hstatus HA HR HsA HsR.
  unfold _new_login, bind, token_bytes, eval, print, input, send.
  world_simpl. rewrite Hkey, Hnet, Hstatus. cbn [Z.eqb Pos.eqb negb].
  rewrite HA.
  assert (Hget : (let? b := body resp in Py.get b "refresh_token" JNull) = Ok (JStr R)).
  { destruct (body resp) as [b|]; [|discriminate]. cbn [result_bind] in *.
    destruct b; try discriminate. cbn [Py.getitem Py.get] in *.
    destruct (Py.assoc "refresh_token" members); [|discriminate].
    by injection HR as ->. }
  rewrite Hget.
  match goal with
  | |- context [_update_token (JStr A) (JStr R) ?w1] =>
      destruct (_update_token_str w1 A R HsA HsR) as (w' & Hrun & Hp)
  end.
  rewrite Hrun. cbn [ret].
  destruct Hp as (H1 & H2 & H3 & H4 & _).
  exists w'. repeat split; try assumption.
  rewrite H4. apply lookup_insert_eq.
Qed.

Lemma new_login_granted_witness :
  ∃ w', _new_login Run.logging_in = (Ok (JStr "A"), w')
        ∧ configparser.raw (config w') "SPOTIFY" "access_token" = Some "A"
        ∧ configparser.raw (config w') "SPOTIFY" "refresh_token" = Some "R"
        ∧ configparser.raw (config w') "SPOTIFY" "last_date_token"
          = Some "14/11/2023 22:13:20"
        ∧ disk w' !! ".env" = Some (ConfigFile (config w')).
Proof.
  apply (new_login_granted Run.logging_in "AQBcode" Run.refreshed "A" "R");
    vm_compute; reflexivity.
Defined.

(** [_update_token] with a refresh token that is not a [str]. *)
Lemma _update_token_type_error (w : world) (A : string)
    (refresh_token : json) :
  configparser.storable A = true →
  (∀ s, refresh_token ≠ JStr s) →
  ∃ w', _update_token (JStr A) refresh_token w = (Raise TypeError, w')
        ∧ configparser.raw (config w') "SPOTIFY" "access_token" = Some A
        ∧ configparser.raw (config w') "SPOTIFY" "refresh_token"
          = configparser.raw (config w) "SPOTIFY" "refresh_token"
        ∧ disk w' = disk w ∧ trace w' = trace w.
Proof.
  intros HA Hns. unfold _update_token, bind.
  set (c0 := if negb (configparser.contains (config w) "SPOTIFY")
             then configparser.setitem_empty (config w) "SPOTIFY" else config w).
  assert (Hc0 : configparser.contains c0 "SPOTIFY" = true).
  { unfold c0. destruct (configparser.contains (config w) "SPOTIFY") eqn:E; [exact E|].
    apply contains_insert. }
  assert (Hraw : configparser.raw c0 "SPOTIFY" "refresh_token"
                 = configparser.raw (config w) "SPOTIFY" "refresh_token").
  { unfold c0. destruct (configparser.contains (config w) "SPOTIFY") eqn:E; [done|].
    cbn [negb]. unfold configparser.contains in E.
    apply orb_false_elim in E as [_ E]. apply bool_decide_eq_false in E.
    unfold configparser.raw, configparser.setitem_empty.
    cbn [String.eqb Ascii.eqb Bool.eqb configparser.default_section configparser.sections].
    rewrite lookup_insert_eq.
    destruct (configparser.sections (config w) !! "SPOTIFY") eqn:E'; [|done].
    exfalso. apply E. eauto. }
  assert (Hstep : (if negb (configparser.contains (config w) "SPOTIFY")
                   then (Ok (), set_config (configparser.setitem_empty (config w) "SPOTIFY") w)
                   else (Ok (), w))
                  = (Ok tt, mk_world (env w) c0 (client_id w) (redirect_uri w) (disk w) (trace w))).
  { unfold c0. destruct (negb _); [reflexivity|]. by destruct w. }
  rewrite Hstep. clear Hstep.
  unfold config_set. cbn [config].
  rewrite (setitem_str c0 "SPOTIFY" "access_token" A Hc0 ltac:(discriminate) HA).
  unfold set_config. cbn [config env client_id redirect_uri disk trace].
  assert (Hfail : ∀ c, configparser.contains c "SPOTIFY" = true →
            configparser.setitem c "SPOTIFY" "refresh_token" refresh_token
            = Raise TypeError).
  { intros c Hc. unfold configparser.setitem. rewrite Hc. cbn [negb].
    destruct refresh_token; try reflexivity. by destruct (Hns s). }
  rewrite Hfail by apply contains_insert.
  eexists. split; [reflexivity|]. world_simpl.
  rewrite !raw_insert.
  change (configparser.optionxform "access_token") with "access_token".
  change (configparser.optionxform "refresh_token") with "refresh_token".
  split; [apply lookup_insert_eq|]. split; [|done].
  rewrite lookup_insert_ne by discriminate.
  unfold configparser.raw in Hraw.
  change (configparser.optionxform "refresh_token") with "refresh_token" in Hraw.
  unfold configparser.raw.
  change (configparser.optionxform "refresh_token") with "refresh_token".
  rewrite <- Hraw.
  by destruct (configparser.sections c0 !! "SPOTIFY").
Qed.

(** X7. [_update_token] is not atomic: with [None] for the refresh token
    it raises [TypeError] after the access token went into the
    store in memory; the stored refresh token is the old one, and
    ['.env'] is not written. *)
Lemma update_token_rejects_absent_refresh_token (w : world) (A : string) :
  configparser.storable A = true →
  ∃ w', _update_token (JStr A) JNull w = (Raise TypeError, w')
        ∧ configparser.raw (config w') "SPOTIFY" "access_token" = Some A
        ∧ configparser.raw (config w') "SPOTIFY" "refresh_token"
          = configparser.raw (config w) "SPOTIFY" "refresh_token"
        ∧ disk w' = disk w ∧ trace w' = trace w.
Proof.
  intros HA. apply _update_token_type_error; [exact HA | discriminate].
Qed.

Lemma update_token_rejects_absent_refresh_token_witness :
  ∃ w', _update_token (JStr "A") JNull Run.refreshing = (Raise TypeError, w')
        ∧ configparser.raw (config w') "SPOTIFY" "access_token" = Some "A"
        ∧ configparser.raw (config w') "SPOTIFY" "refresh_token" = Some "AQCold"
        ∧ disk w' = disk Run.refreshing ∧ trace w' = trace Run.refreshing.
Proof.
  apply (update_token_rejects_absent_refresh_token Run.refreshing "A").
  reflexivity.
Defined.

(** X8. When the exchange is answered with 200 and an access token but no
    ['refresh_token'], [_new_login] raises [TypeError]: the access token
    is in the store in memory and the files are as before. *)
Lemma login_without_refresh_token_fails (w : world) (auth_code : string)
    (resp : response) (members : list (string * json)) (A : string) :
  keyboard (env w) 0 = Ok auth_code →
  network (env w) 0 = Ok resp →
  status_code resp = 200 →
  body resp = Ok (JObj members) →
  Py.assoc "access_token" members = Some (JStr A) →
  Py.assoc "refresh_token" members = None →
  configparser.storable A = true →
  ∃ w', _new_login w = (Raise TypeError, w')
        ∧ configparser.raw (config w') "SPOTIFY" "access_token" = Some A
        ∧ disk w' = disk w.
Proof.
  intros Hkey Hnet Hstatus Hbody HA HR HsA.
  unfold _new_login, bind, token_bytes, eval, print, input, send.
  world_simpl. rewrite Hkey, Hnet, Hstatus, Hbody. cbn [Z.eqb Pos.eqb negb].
  cbn [result_bind Py.getitem Py.get]. rewrite HA, HR. cbn [default from_option id].
  match goal with
  | |- context [_update_token (JStr A) JNull ?w1] =>
      destruct (_update_token_type_error w1 A JNull HsA
                  ltac:(discriminate)) as (w' & Hrun & Hraw & _ & Hdisk & _)
  end.
  rewrite Hrun. exists w'. split; [reflexivity|]. split; [exact Hraw|].
  rewrite Hdisk. reflexivity.
Qed.

Lemma login_without_refresh_token_fails_witness :
  ∃ w', _new_login Run.partial_login = (Raise TypeError, w')
        ∧ configparser.raw (config w') "SPOTIFY" "access_token" = Some "A"
        ∧ disk w' = disk Run.partial_login.
Proof.
  eapply (login_without_refresh_token_fails Run.partial_login "AQBcode" Run.partial);
    vm_compute; reflexivity.
Defined.

(** *** The stored time read back *)

Ltac cases_from d n fuel :=
  lazymatch fuel with
  | O => exfalso; lia
  | S ?f =>
      destruct (Z.eq_dec d n) as [-> | ?];
      [ | let n' := eval compute in (n + 1) in cases_from d n' f ]
  end.

Lemma append_cons (c : ascii) (s t : string) :
  String c s +:+ t = String c (s +:+ t).
Proof. reflexivity. Qed.

Lemma append_nil_l (s : string) : "" +:+ s = s.
Proof. reflexivity. Qed.

Lemma append_nil_r (s : string) : s +:+ "" = s.
Proof. induction s as [|c s IH]; [reflexivity|]. by rewrite append_cons, IH. Qed.

Lemma directive_d_two_digits {A} (k : Z → datetime.rest_parser A)
    (d : Z) (rest : string) (r : A) :
  1 <= d <= 31 → k d rest = Some r →
  datetime.directive_d k (Text.two_digits d +:+ rest) = Some r.
Proof.
  intros Hd Hk. cases_from d 1 31%nat; cbv; cbv in Hk; rewrite Hk; reflexivity.
Qed.

Lemma directive_m_two_digits {A} (k : Z → datetime.rest_parser A)
    (m : Z) (rest : string) (r : A) :
  1 <= m <= 12 → k m rest = Some r →
  datetime.directive_m k (Text.two_digits m +:+ rest) = Some r.
Proof.
  intros Hm Hk. cases_from m 1 12%nat; cbv; cbv in Hk; rewrite Hk; reflexivity.
Qed.

Lemma directive_H_two_digits {A} (k : Z → datetime.rest_parser A)
    (h : Z) (rest : string) (r : A) :
  0 <= h <= 23 → k h rest = Some r →
  datetime.spaces (datetime.directive_H k) (String " " (Text.two_digits h +:+ rest))
  = Some r.
Proof.
  intros Hh Hk. cases_from h 0 24%nat; cbv; cbv in Hk; rewrite Hk; reflexivity.
Qed.

Lemma directive_M_two_digits {A} (k : Z → datetime.rest_parser A)
    (m : Z) (rest : string) (r : A) :
  0 <= m <= 59 → k m rest = Some r →
  datetime.directive_M k (Text.two_digits m +:+ rest) = Some r.
Proof.
  intros Hm Hk. cases_from m 0 60%nat; cbv; cbv in Hk; rewrite Hk; reflexivity.
Qed.

Lemma directive_S_two_digits {A} (k : Z → datetime.rest_parser A)
    (s : Z) (rest : string) (r : A) :
  0 <= s <= 59 → k s rest = Some r →
  datetime.directive_S k (Text.two_digits s +:+ rest) = Some r.
Proof.
  intros Hs Hk. cases_from s 0 60%nat; cbv; cbv in Hk; rewrite Hk; reflexivity.
Qed.

Lemma digit_is_digit (a : Z) :
  0 <= a < 10 →
  Text.is_digit (Text.digit a) = true ∧ Text.digit_value (Text.digit a) = a.
Proof. intros Ha. cases_from a 0 10%nat; split; reflexivity. Qed.

Lemma decimal_four_digits (y : Z) :
  1000 <= y <= 9999 →
  Text.decimal y
  = String (Text.digit (y / 1000))
      (String (Text.digit (y / 100 mod 10))
         (String (Text.digit (y / 10 mod 10))
            (String (Text.digit (y mod 10)) ""))).
Proof.
  intros Hy. unfold Text.decimal.
  replace (y <? 0) with false by (symmetry; apply Z.ltb_ge; lia).
  rewrite Z.abs_eq by lia.
  assert (Hlog : 9 <= Z.log2 y).
  { change 9 with (Z.log2 512). apply Z.log2_le_mono. lia. }
  destruct (Z.to_nat (Z.log2 y)) as [|[|[|fuel]]] eqn:Hfuel; try lia.
  cbn [Text.digits_loop].
  replace (y <? 10) with false by (symmetry; apply Z.ltb_ge; lia).
  replace (y / 10 <? 10) with false
    by (symmetry; apply Z.ltb_ge; Z.div_mod_to_equations; lia).
  replace (y / 10 / 10 <? 10) with false
    by (symmetry; apply Z.ltb_ge; Z.div_mod_to_equations; lia).
  replace (y / 10 / 10 / 10 <? 10) with true
    by (symmetry; apply Z.ltb_lt; Z.div_mod_to_equations; lia).
  rewrite !Z.div_div by lia.
  change (10 * 10) with 100. change (10 * 100) with 1000.
  replace (y / 1000 mod 10) with (y / 1000)
    by (symmetry; apply Z.mod_small; Z.div_mod_to_equations; lia).
  reflexivity.
Qed.

Lemma directive_Y_decimal {A} (k : Z → datetime.rest_parser A)
    (y : Z) (rest : string) :
  1000 <= y <= 9999 →
  datetime.directive_Y k (Text.decimal y +:+ rest) = k y rest.
Proof.
  intros Hy. rewrite decimal_four_digits by exact Hy.
  assert (H1 : 0 <= y / 1000 < 10) by (Z.div_mod_to_equations; lia).
  assert (H2 : 0 <= y / 100 mod 10 < 10) by (apply Z.mod_pos_bound; lia).
  assert (H3 : 0 <= y / 10 mod 10 < 10) by (apply Z.mod_pos_bound; lia).
  assert (H4 : 0 <= y mod 10 < 10) by (apply Z.mod_pos_bound; lia).
  destruct (digit_is_digit _ H1) as [D1 V1]. destruct (digit_is_digit _ H2) as [D2 V2].
  destruct (digit_is_digit _ H3) as [D3 V3]. destruct (digit_is_digit _ H4) as [D4 V4].
  rewrite !append_cons.
  unfold datetime.directive_Y, datetime.two, datetime.any_digit.
  rewrite D1, D2, D3, D4, V1, V2, V3, V4. cbn [andb].
  f_equal. Z.div_mod_to_equations. lia.
Qed.

Lemma valid_fields (d : datetime.t) :
  datetime.valid d = true →
  1 <= datetime.year d <= 9999 ∧ 1 <= datetime.month d <= 12
  ∧ 1 <= datetime.day d <= 31
  ∧ 0 <= datetime.hour d <= 23 ∧ 0 <= datetime.minute d <= 59
  ∧ 0 <= datetime.second d <= 59.
Proof.
  unfold datetime.valid. rewrite !andb_true_iff, !Z.leb_le.
  intros H.
  assert (Hdim : datetime.days_in_month (datetime.year d) (datetime.month d) <= 31).
  { unfold datetime.days_in_month.
    repeat match goal with |- context [if ?b then _ else _] => destruct b end; lia. }
  lia.
Qed.

Lemma match_of_strftime (d : datetime.t) :
  datetime.valid d = true →
  1000 <= datetime.year d →
  datetime.match_dmY_HMS (datetime.strftime_dmY_HMS d)
  = Some (datetime.mk (datetime.year d) (datetime.month d) (datetime.day d)
            (datetime.hour d) (datetime.minute d) (datetime.second d) 0, "").
Proof.
  intros Hvalid Hyear.
  destruct (valid_fields d Hvalid) as (Hy & Hmo & Hd & Hh & Hmi & Hs).
  unfold datetime.match_dmY_HMS, datetime.strftime_dmY_HMS.
  apply directive_d_two_digits; [exact Hd|].
  rewrite append_cons, append_nil_l. cbn [datetime.literal Ascii.eqb Bool.eqb].
  apply directive_m_two_digits; [exact Hmo|].
  rewrite append_cons, append_nil_l. cbn [datetime.literal Ascii.eqb Bool.eqb].
  rewrite directive_Y_decimal by lia.
  rewrite append_cons, append_nil_l.
  apply directive_H_two_digits; [exact Hh|].
  rewrite append_cons, append_nil_l. cbn [datetime.literal Ascii.eqb Bool.eqb].
  apply directive_M_two_digits; [exact Hmi|].
  rewrite append_cons, append_nil_l. cbn [datetime.literal Ascii.eqb Bool.eqb].
  rewrite <- (append_nil_r (Text.two_digits (datetime.second d))).
  apply directive_S_two_digits; [exact Hs|]. reflexivity.
Qed.

Lemma valid_without_microseconds (d : datetime.t) :
  datetime.valid d = true →
  datetime.valid
    (datetime.mk (datetime.year d) (datetime.month d) (datetime.day d)
       (datetime.hour d) (datetime.minute d) (datetime.second d) 0) = true.
Proof.
  unfold datetime.valid. cbn [datetime.year datetime.month datetime.day
    datetime.hour datetime.minute datetime.second datetime.microsecond].
  rewrite !andb_true_iff, !Z.leb_le. lia.
Qed.

(** X9. The text that [_update_token] stores for a date-time (of a year
    from 1000 on) is parsed by [_verify_valid_token] to the same
    date-time, cut to the second. *)
Lemma strptime_of_strftime (d : datetime.t) :
  datetime.valid d = true →
  1000 <= datetime.year d →
  datetime.strptime_dmY_HMS (datetime.strftime_dmY_HMS d)
  = Ok (datetime.mk (datetime.year d) (datetime.month d) (datetime.day d)
          (datetime.hour d) (datetime.minute d) (datetime.second d) 0).
Proof.
  intros Hvalid Hyear. unfold datetime.strptime_dmY_HMS.
  by rewrite (match_of_strftime d Hvalid Hyear), (valid_without_microseconds d Hvalid).
Qed.

Lemma strptime_of_strftime_witness :
  datetime.strptime_dmY_HMS
    (datetime.strftime_dmY_HMS (datetime.mk 2023 11 14 22 13 20 123456))
  = Ok (datetime.mk 2023 11 14 22 13 20 0).
Proof.
  apply (strptime_of_strftime (datetime.mk 2023 11 14 22 13 20 123456)).
  - reflexivity.
  - vm_compute. discriminate.
Defined.

Lemma scan_plain_tokens (s : string) :
  Text.contains "%" s = false →
  configparser.scan true configparser.Text s
  = map configparser.Char (list_ascii_of_string s).
Proof.
  induction s as [|a s IH]; [reflexivity|]. intros H.
  cbn [Text.contains] in H. apply orb_false_elim in H as [Ha Hs].
  cbn [configparser.scan list_ascii_of_string map]. rewrite Ha. f_equal. by apply IH.
Qed.

Lemma before_get_plain (options : gmap string string) (value : string) :
  Text.contains "%" value = false →
  configparser.before_get options value = Ok value.
Proof.
  intros H. unfold configparser.before_get. cbn [configparser.interpolate].
  rewrite scan_plain_tokens by exact H. clear H.
  induction value as [|a s IH]; [reflexivity|].
  cbn [list_ascii_of_string map]. by rewrite IH.
Qed.

Lemma getitem_of_raw (config : configparser.t) (section name value : string) :
  section ≠ configparser.default_section →
  configparser.raw config section name = Some value →
  Text.contains "%" value = false →
  configparser.getitem config section name = Ok value.
Proof.
  intros Hsec Hraw Hplain. unfold configparser.raw in Hraw.
  destruct (configparser.sections config !! section) as [options|] eqn:Hs;
    [|discriminate].
  cbn in Hraw.
  assert (Hu : configparser.unify_values config section
               !! configparser.optionxform name = Some value).
  { unfold configparser.unify_values. rewrite Hs. cbn [default from_option id].
    by apply lookup_union_Some_l. }
  unfold configparser.getitem, configparser.contains, configparser.has_option.
  rewrite Hs, Hu.
  destruct (String.eqb_spec section configparser.default_section); [done|].
  rewrite !bool_decide_eq_true_2 by eauto.
  cbn [orb negb]. by apply before_get_plain.
Qed.

Lemma _update_token_advances_clock (w w' : world) (a r : string) :
  configparser.storable a = true →
  configparser.storable r = true →
  _update_token (JStr a) (JStr r) w = (Ok tt, w') →
  clock (env w') 0 = clock (env w) 1.
Proof.
  intros Ha Hr. unfold _update_token, bind.
  set (c0 := if negb (configparser.contains (config w) "SPOTIFY")
             then configparser.setitem_empty (config w) "SPOTIFY" else config w).
  assert (Hc0 : configparser.contains c0 "SPOTIFY" = true).
  { unfold c0. destruct (configparser.contains (config w) "SPOTIFY") eqn:E; [exact E|].
    apply contains_insert. }
  assert (Hstep : (if negb (configparser.contains (config w) "SPOTIFY")
                   then (Ok (), set_config (configparser.setitem_empty (config w) "SPOTIFY") w)
                   else (Ok (), w))
                  = (Ok tt, mk_world (env w) c0 (client_id w) (redirect_uri w) (disk w) (trace w))).
  { unfold c0. destruct (negb _); [reflexivity|]. by destruct w. }
  rewrite Hstep. clear Hstep.
  unfold config_set. cbn [config].
  rewrite (setitem_str c0 "SPOTIFY" "access_token" a Hc0 ltac:(discriminate) Ha).
  unfold set_config. cbn [config env client_id redirect_uri disk trace].
  rewrite setitem_str; [| apply contains_insert | discriminate | exact Hr].
  cbn [config env client_id redirect_uri disk trace configparser.sections configparser.defaults].
  unfold now. cbn [config env client_id redirect_uri disk trace set_env].
  rewrite setitem_str; [| apply contains_insert | discriminate | apply storable_strftime].
  cbn [config env client_id redirect_uri disk trace configparser.sections configparser.defaults eval write_file log set_disk].
  intros H. injection H as <-. reflexivity.
Qed.

(** X10. After [_update_token] stored a token at a clock reading, the next
    [_verify_valid_token] finds it fresh if and only if the next clock
    reading is at most 60 minutes and 30 seconds after the second of the
    first. *)
Lemma stored_token_is_fresh (w : world) (A R : string) :
  configparser.storable A = true →
  configparser.storable R = true →
  datetime.valid (clock (env w) 0) = true →
  1000 <= datetime.year (clock (env w) 0) →
  let stamp := clock (env w) 0 in
  let stored :=
    datetime.mk (datetime.year stamp) (datetime.month stamp) (datetime.day stamp)
      (datetime.hour stamp) (datetime.minute stamp) (datetime.second stamp) 0 in
  ∃ w',
    _update_token (JStr A) (JStr R) w = (Ok tt, w')
    ∧ clock (env w') 0 = clock (env w) 1
    ∧ (_verify_valid_token w').1
      = Ok (datetime.sub (clock (env w) 1) stored <=? 3630000000).
Proof.
  intros HA HR Hvalid Hyear stamp stored.
  destruct (_update_token_str w A R HA HR) as (w' & Hrun & _ & _ & Hraw & _).
  pose proof (_update_token_advances_clock w w' A R HA HR Hrun) as Hclock.
  exists w'. split; [exact Hrun|]. split; [exact Hclock|].
  apply getitem_of_raw in Hraw; [|discriminate|apply strftime_plain].
  unfold _verify_valid_token, bind, config_get, eval, now, datetime.strptime_dmY_HMS.
  rewrite Hraw, (match_of_strftime _ Hvalid Hyear),
    (valid_without_microseconds _ Hvalid), rounded_minutes_le_60.
  rewrite Hclock. fold stamp. fold stored.
  by destruct (_ <=? _).
Qed.

Lemma stored_token_is_fresh_witness :
  ∃ w', _update_token (JStr "A") (JStr "R") Run.refreshing = (Ok tt, w')
        ∧ (_verify_valid_token w').1 = Ok true.
Proof.
  destruct (stored_token_is_fresh Run.refreshing "A" "R" eq_refl eq_refl eq_refl
              ltac:(vm_compute; discriminate)) as (w' & Hrun & _ & Hfresh).
  exists w'. split; [exact Hrun | exact Hfresh].
Defined.

(** *** The page fetch when something is missing *)

(** X11. [get_tracks_history] never looks at the status code: when the
    response has no ['items'] (an error answer), the fault of that lookup
    is raised, no sink is touched, and the driver loop stops with it. *)
Lemma error_body_is_fatal (unix_date : Z) (w w1 : world)
    (access_token : json) (resp : response) (e : exception) :
  token_for_request w = (Ok access_token, w1) →
  network (env w1) 0 = Ok resp →
  body resp ∙ "items" = Raise e →
  ∃ w2, get_tracks_history unix_date w = (Raise e, w2)
        ∧ sinks w2 = sinks w
        ∧ disk w2 !! "resultado.json" = disk w !! "resultado.json"
        ∧ ∀ fuel, unix_date ≠ 0 →
                  while_next_page (S fuel) unix_date w = (Raise e, w2).
Proof.
  intros Htoken Hnet Hitems.
  destruct (token_events_reach_no_sink w w1 (token_for_request_only _ _ _ Htoken))
    as [Hsinks Hdisk].
  assert (Hget : ∃ w2, get_tracks_history unix_date w = (Raise e, w2)
                       ∧ sinks w2 = sinks w
                       ∧ disk w2 !! "resultado.json" = disk w !! "resultado.json").
  { unfold get_tracks_history, bind. rewrite Htoken.
    unfold send. rewrite Hnet. unfold eval. rewrite Hitems. cbn [result_bind].
    eexists. split; [reflexivity|]. unfold sinks in *. world_simpl.
    rewrite List.filter_app, Hsinks, Hdisk. cbn [List.filter sink_event].
    by rewrite app_nil_r. }
  destruct Hget as (w2 & Hget & Hs & Hd). exists w2. repeat split; try done.
  intros fuel Hnz. cbn [while_next_page].
  destruct (Z.eqb_spec unix_date 0); [done|]. unfold bind. by rewrite Hget.
Qed.

Lemma error_body_is_fatal_witness :
  let w := Run.fresh [Ok (mk_response 401 (Ok (JObj [("error", JObj [("status", JInt 401)])])))] in
  ∃ w2, get_tracks_history 1700000000000 w = (Raise (KeyError (JStr "items")), w2)
        ∧ sinks w2 = sinks w.
Proof.
  intros w.
  destruct (error_body_is_fatal 1700000000000 w (token_for_request w).2 (JStr "BQDold")
              (mk_response 401 (Ok (JObj [("error", JObj [("status", JInt 401)])])))
              (KeyError (JStr "items")))
    as (w2 & Hrun & Hsinks & _).
  - apply run_eq. vm_compute. reflexivity.
  - vm_compute. reflexivity.
  - reflexivity.
  - exists w2. split; [exact Hrun | exact Hsinks].
Defined.

(** X12. A page with items whose ['cursors']['before'] is missing or is not
    an integer raises that fault before any write: neither sink gets the
    items of that page. *)
Lemma page_without_cursor_is_lost (unix_date : Z) (w w1 : world)
    (access_token : json) (resp : response) (item : json) (items : list json)
    (e : exception) :
  token_for_request w = (Ok access_token, w1) →
  network (env w1) 0 = Ok resp →
  body resp ∙ "items" = Ok (JList (item :: items)) →
  (let? before := body resp ∙ "cursors" ∙ "before" in Builtins.int before)
  = Raise e →
  ∃ w2, get_tracks_history unix_date w = (Raise e, w2)
        ∧ sinks w2 = sinks w
        ∧ disk w2 !! "resultado.json" = disk w !! "resultado.json".
Proof.
  intros Htoken Hnet Hitems Hcursor.
  destruct (token_events_reach_no_sink w w1 (token_for_request_only _ _ _ Htoken))
    as [Hsinks Hdisk].
  unfold get_tracks_history, bind. rewrite Htoken.
  unfold send. rewrite Hnet. unfold eval. rewrite Hitems.
  cbn [result_bind Builtins.len List.length]. rewrite Nat2Z.inj_succ.
  destruct (Z.eqb_spec (Z.succ (Z.of_nat (List.length items))) 0) as [E|_]; [lia|].
  rewrite Hcursor.
  eexists. split; [reflexivity|]. unfold sinks in *. world_simpl.
  rewrite List.filter_app, Hsinks, Hdisk. cbn [List.filter sink_event].
  by rewrite app_nil_r.
Qed.

Lemma page_without_cursor_is_lost_witness :
  let resp := mk_response 200 (Ok (JObj [ ("items", JList Run.two_items);
                                          ("limit", JInt 50) ])) in
  let w := Run.fresh [Ok resp] in
  ∃ w2, get_tracks_history 1700000000000 w = (Raise (KeyError (JStr "cursors")), w2)
        ∧ sinks w2 = sinks w
        ∧ disk w2 !! "resultado.json" = disk w !! "resultado.json".
Proof.
  intros resp w.
  apply (page_without_cursor_is_lost 1700000000000 w (token_for_request w).2
           (JStr "BQDold") resp (Sample.example_item JNull)
           [Sample.example_item Sample.example_context]).
  - apply run_eq. vm_compute. reflexivity.
  - vm_compute. reflexivity.
  - reflexivity.
  - reflexivity.
Defined.

(** X13. The local file is written before the upload: when the upload
    fails, [get_tracks_history] raises its fault, ['resultado.json'] holds
    the page, and the upload was tried once. *)
Lemma failed_upload_keeps_local_page (unix_date : Z) (w w1 : world)
    (access_token : json) (resp : response) (item : json) (items : list json)
    (before : json) (next : Z) (key_id secret region bucket_name : string)
    (e : exception) :
  token_for_request w = (Ok access_token, w1) →
  network (env w1) 0 = Ok resp →
  body resp ∙ "items" = Ok (JList (item :: items)) →
  body resp ∙ "cursors" ∙ "before" = Ok before →
  Builtins.int before = Ok next →
  configparser.getitem (config w1) "AWS" "AWS_ACCESS_KEY_ID" = Ok key_id →
  configparser.getitem (config w1) "AWS" "AWS_SECRET_ACCESS_KEY" = Ok secret →
  configparser.getitem (config w1) "AWS" "AWS_REGION" = Ok region →
  configparser.getitem (config w1) "AWS" "S3_BUCKET_NAME" = Ok bucket_name →
  object_store (env w1) 0 = Raise e →
  let page := JsonText (JList (item :: items)) 4 in
  ∃ w2 object,
    get_tracks_history unix_date w = (Raise e, w2)
    ∧ disk w2 !! "resultado.json" = Some page
    ∧ sinks w2
      = sinks w ++ [ Wrote "resultado.json" page;
                     Put (mk_client key_id secret region) object (Raise e) ]
    ∧ Body object = page.
Proof.
  intros Htoken Hnet Hitems Hbefore Hint Hkey Hsecret Hregion Hbucket Hstore page.
  destruct (token_events_reach_no_sink w w1 (token_for_request_only _ _ _ Htoken))
    as [Hsinks _].
  unfold get_tracks_history, bind. rewrite Htoken.
  unfold send. rewrite Hnet. unfold eval. rewrite Hitems, Hbefore.
  cbn [result_bind Builtins.len List.length]. rewrite Hint.
  rewrite Nat2Z.inj_succ.
  destruct (Z.eqb_spec (Z.succ (Z.of_nat (List.length items))) 0) as [E|_]; [lia|].
  unfold write_file, save_to_s3, bind, config_get, eval, now, put_object, print.
  world_simpl. rewrite Hkey, Hsecret, Hregion, Hbucket, Hstore.
  do 2 eexists. split; [reflexivity|]. world_simpl.
  split; [apply lookup_insert_eq|]. split.
  - unfold sinks in *. world_simpl.
    rewrite !List.filter_app, Hsinks.
    cbn [List.filter sink_event String.eqb Ascii.eqb Bool.eqb].
    rewrite <- !app_assoc. reflexivity.
  - reflexivity.
Qed.

Lemma failed_upload_keeps_local_page_witness :
  let w := Run.offline_store
             (Run.fresh [Scenario.page Run.two_items (JStr "1699999000000")]) in
  let page := JsonText (JList Run.two_items) 4 in
  ∃ w2 object,
    get_tracks_history 1700000000000 w
    = (Raise (LibraryError "EndpointConnectionError"), w2)
    ∧ disk w2 !! "resultado.json" = Some page
    ∧ sinks w2
      = sinks w ++ [ Wrote "resultado.json" page;
                     Put (mk_client "AKIAEXAMPLE" "wJalrXUt" "sa-east-1") object
                         (Raise (LibraryError "EndpointConnectionError")) ]
    ∧ Body object = page.
Proof.
  intros w page.
  apply (failed_upload_keeps_local_page 1700000000000 w (token_for_request w).2
           (JStr "BQDold")
           (Run.answered (Scenario.page Run.two_items (JStr "1699999000000")))
           (Sample.example_item JNull) [Sample.example_item Sample.example_context]
           (JStr "1699999000000") 1699999000000
           "AKIAEXAMPLE" "wJalrXUt" "sa-east-1" "wrapped-raw").
  - apply run_eq. vm_compute. reflexivity.
  - vm_compute. reflexivity.
  - vm_compute. reflexivity.
  - vm_compute. reflexivity.
  - vm_compute. reflexivity.
  - vm_compute. reflexivity.
  - vm_compute. reflexivity.
  - vm_compute. reflexivity.
  - vm_compute. reflexivity.
  - vm_compute. reflexivity.
Defined.

(** X14. When one of the four AWS options cannot be read from the store,
    [get_tracks_history] raises that fault after ['resultado.json'] was
    written and without any upload. *)
Lemma missing_bucket_option_after_local_write (unix_date : Z) (w w1 : world)
    (access_token : json) (resp : response) (item : json) (items : list json)
    (before : json) (next : Z) (e : exception) :
  token_for_request w = (Ok access_token, w1) →
  network (env w1) 0 = Ok resp →
  body resp ∙ "items" = Ok (JList (item :: items)) →
  body resp ∙ "cursors" ∙ "before" = Ok before →
  Builtins.int before = Ok next →
  (let? key_id := configparser.getitem (config w1) "AWS" "AWS_ACCESS_KEY_ID" in
   let? secret := configparser.getitem (config w1) "AWS" "AWS_SECRET_ACCESS_KEY" in
   let? region := configparser.getitem (config w1) "AWS" "AWS_REGION" in
   configparser.getitem (config w1) "AWS" "S3_BUCKET_NAME") = Raise e →
  let page := JsonText (JList (item :: items)) 4 in
  ∃ w2,
    get_tracks_history unix_date w = (Raise e, w2)
    ∧ disk w2 !! "resultado.json" = Some page
    ∧ sinks w2 = sinks w ++ [ Wrote "resultado.json" page ].
Proof.
  intros Htoken Hnet Hitems Hbefore Hint Haws page.
  destruct (token_events_reach_no_sink w w1 (token_for_request_only _ _ _ Htoken))
    as [Hsinks _].
  unfold get_tracks_history, bind. rewrite Htoken.
  unfold send. rewrite Hnet. unfold eval. rewrite Hitems, Hbefore.
  cbn [result_bind Builtins.len List.length]. rewrite Hint.
  rewrite Nat2Z.inj_succ.
  destruct (Z.eqb_spec (Z.succ (Z.of_nat (List.length items))) 0) as [E|_]; [lia|].
  unfold write_file, save_to_s3, bind, config_get, eval.
  world_simpl.
  assert (Hend : ∀ w2 : world,
            disk w2 = <["resultado.json" := page]> (disk w1) →
            trace w2 = (trace w1 ++ [Http (mk_request "GET" history_url
                          [("Authorization", Formatted "Bearer " access_token)]
                          [("limit", JInt 50); ("before", JInt unix_date)]) (Ok resp)])
                       ++ [Wrote "resultado.json" page] →
            disk w2 !! "resultado.json" = Some page
            ∧ sinks w2 = sinks w ++ [Wrote "resultado.json" page]).
  { intros w2 Hd Ht. split; [rewrite Hd; apply lookup_insert_eq|].
    unfold sinks in *. rewrite Ht, !List.filter_app, Hsinks.
    cbn [List.filter sink_event String.eqb Ascii.eqb Bool.eqb].
    by rewrite <- !app_assoc. }
  destruct (configparser.getitem (config w1) "AWS" "AWS_ACCESS_KEY_ID") as [?|?];
    cbn [result_bind] in Haws.
  2: { injection Haws as ->. eexists. split; [reflexivity|]. by apply Hend. }
  destruct (configparser.getitem (config w1) "AWS" "AWS_SECRET_ACCESS_KEY") as [?|?];
    cbn [result_bind] in Haws.
  2: { injection Haws as ->. eexists. split; [reflexivity|]. by apply Hend. }
  destruct (configparser.getitem (config w1) "AWS" "AWS_REGION") as [?|?];
    cbn [result_bind] in Haws.
  2: { injection Haws as ->. eexists. split; [reflexivity|]. by apply Hend. }
  rewrite Haws. eexists. split; [reflexivity|]. by apply Hend.
Qed.

Lemma missing_bucket_option_after_local_write_witness :
  let w := Scenario.start Run.store_without_bucket
             (Scenario.surroundings (datetime.mk 2023 11 14 22 13 20 0)
                [Scenario.page Run.two_items (JStr "1699999000000")] []) in
  let page := JsonText (JList Run.two_items) 4 in
  ∃ w2,
    get_tracks_history 1700000000000 w
    = (Raise (KeyError (JStr "S3_BUCKET_NAME")), w2)
    ∧ disk w2 !! "resultado.json" = Some page
    ∧ sinks w2 = sinks w ++ [ Wrote "resultado.json" page ].
Proof.
  intros w page.
  apply (missing_bucket_option_after_local_write 1700000000000 w
           (token_for_request w).2 (JStr "BQDold")
           (Run.answered (Scenario.page Run.two_items (JStr "1699999000000")))
           (Sample.example_item JNull) [Sample.example_item Sample.example_context]
           (JStr "1699999000000") 1699999000000).
  - apply run_eq. vm_compute. reflexivity.
  - vm_compute. reflexivity.
  - vm_compute. reflexivity.
  - vm_compute. reflexivity.
  - vm_compute. reflexivity.
  - vm_compute. reflexivity.
Defined.

(** *** The record of [get_data] *)

(** X15. A record that [get_data] returns has these seventeen keys, in this
    order. *)
Lemma get_data_keys (data output_data : json) :
  get_data data = Ok output_data →
  ∃ members,
    output_data = JObj members
    ∧ map fst members
      = [ "id_album"; "name_album"; "release_date"; "total_tracks";
          "album_type"; "image_album"; "artist_album_id"; "artist_album_name";
          "duration_ms"; "explicit"; "track_id"; "is_local"; "track_name";
          "popularity"; "played_at"; "type"; "playlist_url" ].
Proof.
  intros H. unfold get_data in H.
  apply result_bind_ok in H as (track & Htrack & H).
  apply result_bind_ok in H as (context & Hcontext & H).
  injection H as <-. exists (track ++ context). split; [reflexivity|].
  unfold track_entries in Htrack.
  repeat (apply result_bind_ok in Htrack as (? & _ & Htrack)).
  injection Htrack as <-.
  unfold context_entries in Hcontext.
  repeat (apply result_bind_ok in Hcontext as (? & _ & Hcontext)).
  injection Hcontext as <-. reflexivity.
Qed.

Lemma get_data_keys_witness :
  ∃ members,
    get_data (Sample.example_item Sample.example_context) = Ok (JObj members)
    ∧ List.length members = 17%nat.
Proof.
  destruct (get_data_keys (Sample.example_item Sample.example_context) _ eq_refl)
    as (members & Heq & Hkeys).
  exists members. split.
  - rewrite <- Heq. reflexivity.
  - rewrite <- (length_map fst), Hkeys. reflexivity.
Defined.

(** X16. An item without a ['context'] key, unlike one whose context is
    [None], makes [get_data] raise [KeyError('context')]. *)
Lemma get_data_absent_context (members : list (string * json))
    (entries : list (string * json)) :
  track_entries (JObj members) = Ok entries →
  Py.assoc "context" members = None →
  get_data (JObj members) = Raise (KeyError (JStr "context")).
Proof.
  intros Htrack Hnone. unfold get_data, context_entries. rewrite Htrack.
  cbn [result_bind Py.getitem]. by rewrite Hnone.
Qed.

Lemma get_data_absent_context_witness :
  get_data (JObj [ ("track", default JNull (Py.assoc "track"
                      match Sample.example_item JNull with
                      | JObj members => members
                      | _ => []
                      end));
                   ("played_at", JStr "2023-11-14T22:13:20.000Z") ])
  = Raise (KeyError (JStr "context")).
Proof.
  eapply get_data_absent_context; reflexivity.
Defined.

(** *** The start and the end of the loop *)

(** X17. When ['.env'] is missing, is no configuration, or has no
    [SPOTIFY] [client_id], [main] raises that fault before any event. *)
Lemma main_needs_a_client_id (fuel : nat) (w : world) (e : exception) :
  match disk w !! ".env" with
  | None => Raise (KeyError (JStr "SPOTIFY"))
  | Some (ConfigFile stored) => configparser.getitem stored "SPOTIFY" "client_id"
  | Some (JsonText _ _) => Raise (LibraryError "MissingSectionHeaderError")
  end = Raise e →
  (main fuel w).1 = Raise e ∧ trace (main fuel w).2 = trace w.
Proof.
  intros H. unfold main, __init__, bind, now, config_get, eval.
  world_simpl.
  destruct (disk w !! ".env") as [[stored | d i]|]; world_simpl.
  - rewrite H. auto.
  - injection H as <-. auto.
  - injection H as <-. auto.
Qed.

Lemma main_needs_a_client_id_witness :
  let w := mk_world (Scenario.surroundings (datetime.mk 2023 11 14 22 13 20 0) [] [])
             configparser.empty "" "" ∅ [] in
  (main 3 w).1 = Raise (KeyError (JStr "SPOTIFY")) ∧ trace (main 3 w).2 = trace w.
Proof.
  intros w. apply (main_needs_a_client_id 3 w). reflexivity.
Defined.

(** X18. A page with an empty ['items'] list ends the loop: after that one
    request the loop pauses 2 seconds once more and returns, and no sink
    was touched. *)
Lemma terminal_page_ends_the_loop (fuel : nat) (unix_date : Z) (w w1 : world)
    (access_token : json) (resp : response) :
  unix_date ≠ 0 →
  token_for_request w = (Ok access_token, w1) →
  network (env w1) 0 = Ok resp →
  body resp ∙ "items" = Ok (JList []) →
  ∃ w2,
    while_next_page (S fuel) unix_date w = (Ok None, w2)
    ∧ trace w2
      = trace w1
        ++ [ Http (mk_request "GET" history_url
                     [("Authorization", Formatted "Bearer " access_token)]
                     [("limit", JInt 50); ("before", JInt unix_date)])
                  (Ok resp);
             Slept 2 ]
    ∧ sinks w2 = sinks w.
Proof.
  intros Hnz Htoken Hnet Hitems.
  destruct (token_events_reach_no_sink w w1 (token_for_request_only _ _ _ Htoken))
    as [Hsinks _].
  cbn [while_next_page]. destruct (Z.eqb_spec unix_date 0); [done|].
  unfold get_tracks_history, bind. rewrite Htoken.
  unfold send. rewrite Hnet. unfold eval. rewrite Hitems.
  cbn [result_bind Builtins.len List.length Z.of_nat Z.eqb ret sleep].
  destruct fuel; cbn [while_next_page Z.eqb ret];
    (eexists; split; [reflexivity|]; unfold sinks in *; world_simpl;
     split; [by rewrite <- app_assoc|];
     rewrite !List.filter_app, Hsinks; cbn [List.filter sink_event];
     by rewrite !app_nil_r).
Qed.

Lemma terminal_page_ends_the_loop_witness :
  let w := Run.fresh [Scenario.last_page] in
  ∃ w2, while_next_page 5 1700000000000 w = (Ok None, w2) ∧ sinks w2 = sinks w.
Proof.
  intros w.
  destruct (terminal_page_ends_the_loop 4 1700000000000 w (token_for_request w).2
              (JStr "BQDold") (Run.answered Scenario.last_page))
    as (w2 & Hrun & _ & Hsinks).
  - discriminate.
  - apply run_eq. vm_compute. reflexivity.
  - vm_compute. reflexivity.
  - vm_compute. reflexivity.
  - exists w2. split; [exact Hrun | exact Hsinks].
Defined.
